(** * MD5 message digest (src/md5.cpp): a shallow embedding and its properties

    The development follows the C++ source function by function:
    [byteSwap], [md5Init], [md5Update], [md5Final], [md5Transform] and the
    one-shot [md5].  Machine integers are [Z] with the wrap-around written
    out, memory is a list of bytes, and the byte order of the host is a
    parameter of every word access, so that [byteSwap] keeps the meaning it
    has in the source on either kind of machine. *)

From Stdlib Require Import ZArith List Lia ZifyNat Bool.
From Stdlib Require Import Strings.Byte Strings.Ascii.
From Stdlib Require Strings.String.
Import String.StringSyntax.
Delimit Scope string_scope with string.
Import ListNotations.
Local Open Scope Z_scope.

(** ** Machine integers and bytes *)

Module Word.

(** Wrap-around of [uint32_t] and [uint64_t] arithmetic. *)
Definition u32 (x : Z) : Z := x mod 2 ^ 32.
Definition u64 (x : Z) : Z := x mod 2 ^ 64.

(** The value of a byte, as [(uint32_t)p[i]] reads it. *)
Definition byte_val (b : byte) : Z := Z.of_N (Byte.to_N b).

(** Truncation of an integer to [uint8_t]. *)
Definition to_byte (z : Z) : byte :=
  match Byte.of_N (Z.to_N (z mod 256)) with
  | Some b => b
  | None => x00
  end.

(** Byte [i] (0 = least significant) of a 32-bit word. *)
Definition byte_of (w : Z) (i : Z) : byte := to_byte (Z.shiftr w (8 * i)).

(** The expression of [byteSwap]:
    [(uint32_t)p[3] << 24 | (uint32_t)p[2] << 16 | (uint32_t)p[1] << 8 | p[0]]. *)
Definition le_word (p0 p1 p2 p3 : byte) : Z :=
  Z.lor (Z.lor (Z.lor (u32 (Z.shiftl (byte_val p3) 24))
                      (u32 (Z.shiftl (byte_val p2) 16)))
               (u32 (Z.shiftl (byte_val p1) 8)))
        (byte_val p0).

(** Byte order of the machine that runs the code. *)
Inductive endianness : Set := LittleEndian | BigEndian.

(** The four bytes a [uint32_t] occupies in memory, lowest address first. *)
Definition store32 (e : endianness) (w : Z) : list byte :=
  match e with
  | LittleEndian => [byte_of w 0; byte_of w 1; byte_of w 2; byte_of w 3]
  | BigEndian => [byte_of w 3; byte_of w 2; byte_of w 1; byte_of w 0]
  end.

(** The [uint32_t] read from four bytes of memory, lowest address first. *)
Definition load32 (e : endianness) (p0 p1 p2 p3 : byte) : Z :=
  match e with
  | LittleEndian => le_word p0 p1 p2 p3
  | BigEndian => le_word p3 p2 p1 p0
  end.

(** A [uint32_t] array seen through a [uint8_t*], and back. *)
Definition store_words (e : endianness) (ws : list Z) : list byte :=
  flat_map (store32 e) ws.

Fixpoint load_words (e : endianness) (mem : list byte) : list Z :=
  match mem with
  | p0 :: p1 :: p2 :: p3 :: rest => load32 e p0 p1 p2 p3 :: load_words e rest
  | _ => []
  end.

(** Little-endian packing of a byte string into words, and the inverse:
    the byte order of the MD5 wire format, whatever the host. *)
Fixpoint le_words (bs : list byte) : list Z :=
  match bs with
  | p0 :: p1 :: p2 :: p3 :: rest => le_word p0 p1 p2 p3 :: le_words rest
  | _ => []
  end.

Definition le_bytes32 (w : Z) : list byte :=
  [byte_of w 0; byte_of w 1; byte_of w 2; byte_of w 3].

Definition le_bytes (ws : list Z) : list byte := flat_map le_bytes32 ws.

End Word.
Import Word.

(** ** The compression step: [md5Transform] *)

(** [#define F1(x, y, z) (z ^ (x & (y ^ z)))] and its companions. *)
Definition F1 (x y z : Z) : Z := Z.lxor z (Z.land x (Z.lxor y z)).
Definition F2 (x y z : Z) : Z := F1 z x y.
Definition F3 (x y z : Z) : Z := Z.lxor (Z.lxor x y) z.
(** [~z] on a [uint32_t]. *)
Definition not32 (z : Z) : Z := u32 (Z.lnot z).
Definition F4 (x y z : Z) : Z := Z.lxor y (Z.lor x (not32 z)).

(** [#define MD5STEP(f,w,x,y,z,in,s) (w += f(x,y,z) + in, w = (w<<s | w>>(32-s)) + x)].
    The macro argument [in] is the unparenthesised text [in[i] + 0x...], so
    the sum is [(f(x,y,z) + in[i]) + 0x...]; every operation is on
    [uint32_t] and wraps.  The result is the new value of [w]. *)
Definition MD5STEP (f : Z -> Z -> Z -> Z) (w x y z : Z) (ini k : Z) (s : Z) : Z :=
  let w1 := u32 (w + u32 (u32 (f x y z + ini) + k)) in
  u32 (Z.lor (u32 (Z.shiftl w1 s)) (Z.shiftr w1 (32 - s)) + x).

(** The assignments of the sixty-four steps are written with a [let] that
    proofs can name without expanding it. *)
Definition Let_In {A B : Type} (v : A) (k : A -> B) : B := k v.

Notation "'dlet' x := v 'in' k" := (Let_In v (fun x => k))
  (at level 10, x name, k at level 200,
   format "'[v' 'dlet'  x  :=  v  'in' '/' k ']'").

(** [in[i]] and [buf[i]] on arrays whose size the type fixes. *)
Definition word_at (ws : list Z) (i : nat) : Z := nth i ws 0.

Definition md5Transform (buf : list Z) (inw : list Z) : list Z :=
  let i := word_at inw in
  let a := word_at buf 0 in
  let b := word_at buf 1 in
  let c := word_at buf 2 in
  let d := word_at buf 3 in

  dlet a := MD5STEP F1 a b c d (i 0%nat) 0xd76aa478 7 in
  dlet d := MD5STEP F1 d a b c (i 1%nat) 0xe8c7b756 12 in
  dlet c := MD5STEP F1 c d a b (i 2%nat) 0x242070db 17 in
  dlet b := MD5STEP F1 b c d a (i 3%nat) 0xc1bdceee 22 in
  dlet a := MD5STEP F1 a b c d (i 4%nat) 0xf57c0faf 7 in
  dlet d := MD5STEP F1 d a b c (i 5%nat) 0x4787c62a 12 in
  dlet c := MD5STEP F1 c d a b (i 6%nat) 0xa8304613 17 in
  dlet b := MD5STEP F1 b c d a (i 7%nat) 0xfd469501 22 in
  dlet a := MD5STEP F1 a b c d (i 8%nat) 0x698098d8 7 in
  dlet d := MD5STEP F1 d a b c (i 9%nat) 0x8b44f7af 12 in
  dlet c := MD5STEP F1 c d a b (i 10%nat) 0xffff5bb1 17 in
  dlet b := MD5STEP F1 b c d a (i 11%nat) 0x895cd7be 22 in
  dlet a := MD5STEP F1 a b c d (i 12%nat) 0x6b901122 7 in
  dlet d := MD5STEP F1 d a b c (i 13%nat) 0xfd987193 12 in
  dlet c := MD5STEP F1 c d a b (i 14%nat) 0xa679438e 17 in
  dlet b := MD5STEP F1 b c d a (i 15%nat) 0x49b40821 22 in

  dlet a := MD5STEP F2 a b c d (i 1%nat) 0xf61e2562 5 in
  dlet d := MD5STEP F2 d a b c (i 6%nat) 0xc040b340 9 in
  dlet c := MD5STEP F2 c d a b (i 11%nat) 0x265e5a51 14 in
  dlet b := MD5STEP F2 b c d a (i 0%nat) 0xe9b6c7aa 20 in
  dlet a := MD5STEP F2 a b c d (i 5%nat) 0xd62f105d 5 in
  dlet d := MD5STEP F2 d a b c (i 10%nat) 0x02441453 9 in
  dlet c := MD5STEP F2 c d a b (i 15%nat) 0xd8a1e681 14 in
  dlet b := MD5STEP F2 b c d a (i 4%nat) 0xe7d3fbc8 20 in
  dlet a := MD5STEP F2 a b c d (i 9%nat) 0x21e1cde6 5 in
  dlet d := MD5STEP F2 d a b c (i 14%nat) 0xc33707d6 9 in
  dlet c := MD5STEP F2 c d a b (i 3%nat) 0xf4d50d87 14 in
  dlet b := MD5STEP F2 b c d a (i 8%nat) 0x455a14ed 20 in
  dlet a := MD5STEP F2 a b c d (i 13%nat) 0xa9e3e905 5 in
  dlet d := MD5STEP F2 d a b c (i 2%nat) 0xfcefa3f8 9 in
  dlet c := MD5STEP F2 c d a b (i 7%nat) 0x676f02d9 14 in
  dlet b := MD5STEP F2 b c d a (i 12%nat) 0x8d2a4c8a 20 in

  dlet a := MD5STEP F3 a b c d (i 5%nat) 0xfffa3942 4 in
  dlet d := MD5STEP F3 d a b c (i 8%nat) 0x8771f681 11 in
  dlet c := MD5STEP F3 c d a b (i 11%nat) 0x6d9d6122 16 in
  dlet b := MD5STEP F3 b c d a (i 14%nat) 0xfde5380c 23 in
  dlet a := MD5STEP F3 a b c d (i 1%nat) 0xa4beea44 4 in
  dlet d := MD5STEP F3 d a b c (i 4%nat) 0x4bdecfa9 11 in
  dlet c := MD5STEP F3 c d a b (i 7%nat) 0xf6bb4b60 16 in
  dlet b := MD5STEP F3 b c d a (i 10%nat) 0xbebfbc70 23 in
  dlet a := MD5STEP F3 a b c d (i 13%nat) 0x289b7ec6 4 in
  dlet d := MD5STEP F3 d a b c (i 0%nat) 0xeaa127fa 11 in
  dlet c := MD5STEP F3 c d a b (i 3%nat) 0xd4ef3085 16 in
  dlet b := MD5STEP F3 b c d a (i 6%nat) 0x04881d05 23 in
  dlet a := MD5STEP F3 a b c d (i 9%nat) 0xd9d4d039 4 in
  dlet d := MD5STEP F3 d a b c (i 12%nat) 0xe6db99e5 11 in
  dlet c := MD5STEP F3 c d a b (i 15%nat) 0x1fa27cf8 16 in
  dlet b := MD5STEP F3 b c d a (i 2%nat) 0xc4ac5665 23 in

  dlet a := MD5STEP F4 a b c d (i 0%nat) 0xf4292244 6 in
  dlet d := MD5STEP F4 d a b c (i 7%nat) 0x432aff97 10 in
  dlet c := MD5STEP F4 c d a b (i 14%nat) 0xab9423a7 15 in
  dlet b := MD5STEP F4 b c d a (i 5%nat) 0xfc93a039 21 in
  dlet a := MD5STEP F4 a b c d (i 12%nat) 0x655b59c3 6 in
  dlet d := MD5STEP F4 d a b c (i 3%nat) 0x8f0ccc92 10 in
  dlet c := MD5STEP F4 c d a b (i 10%nat) 0xffeff47d 15 in
  dlet b := MD5STEP F4 b c d a (i 1%nat) 0x85845dd1 21 in
  dlet a := MD5STEP F4 a b c d (i 8%nat) 0x6fa87e4f 6 in
  dlet d := MD5STEP F4 d a b c (i 15%nat) 0xfe2ce6e0 10 in
  dlet c := MD5STEP F4 c d a b (i 6%nat) 0xa3014314 15 in
  dlet b := MD5STEP F4 b c d a (i 13%nat) 0x4e0811a1 21 in
  dlet a := MD5STEP F4 a b c d (i 4%nat) 0xf7537e82 6 in
  dlet d := MD5STEP F4 d a b c (i 11%nat) 0xbd3af235 10 in
  dlet c := MD5STEP F4 c d a b (i 2%nat) 0x2ad7d2bb 15 in
  dlet b := MD5STEP F4 b c d a (i 9%nat) 0xeb86d391 21 in

  [ u32 (word_at buf 0 + a);
    u32 (word_at buf 1 + b);
    u32 (word_at buf 2 + c);
    u32 (word_at buf 3 + d) ].

(** ** Outcomes of the stateful operations

    The C functions return nothing and have no error channel.  The
    embedding makes two things explicit that the source leaves implicit:
    every access to a fixed-size array is checked and faults when it falls
    outside ([OutOfBounds]), and every call of [md5Transform] is recorded,
    in order, with the sixteen words it is handed.  [OutOfFuel] is the
    fault of the one loop whose bound is an argument of the model. *)

Inductive fault : Set := OutOfBounds | OutOfFuel.

Inductive Run (A : Type) : Type :=
| Ok (a : A) (calls : list (list Z))
| Fault (f : fault).
Arguments Ok {A} a calls.
Arguments Fault {A} f.

Definition ret {A : Type} (a : A) : Run A := Ok a [].

Definition bind {A B : Type} (m : Run A) (k : A -> Run B) : Run B :=
  match m with
  | Ok a calls =>
      match k a with
      | Ok b calls' => Ok b (calls ++ calls')
      | Fault f => Fault f
      end
  | Fault f => Fault f
  end.

Notation "x <- m ;; k" := (bind m (fun x => k))
  (at level 61, m at next level, right associativity).
Notation "' p <- m ;; k" := (bind m (fun x => match x with p => k end))
  (at level 61, p pattern, m at next level, right associativity).

(** The call [md5Transform(buf, in)]: the new value of [buf], with the call
    recorded. *)
Definition call_md5Transform (buf : list Z) (inw : list Z) : Run (list Z) :=
  Ok (md5Transform buf inw) [inw].

(** ** Memory operations on a fixed-size array *)

Definition in_bounds (mem : list byte) (off n : Z) : bool :=
  (0 <=? off) && (0 <=? n) && (off + n <=? Z.of_nat (length mem)).

(** [memcpy((uint8_t* )dst + off, src, n)]. *)
Definition memcpy (dst : list byte) (off : Z) (src : list byte) (n : Z)
  : Run (list byte) :=
  if in_bounds dst off n && (n <=? Z.of_nat (length src)) then
    ret (firstn (Z.to_nat off) dst ++ firstn (Z.to_nat n) src
           ++ skipn (Z.to_nat (off + n)) dst)
  else Fault OutOfBounds.

(** [memset((uint8_t* )dst + off, c, n)]. *)
Definition memset (dst : list byte) (off : Z) (c : byte) (n : Z)
  : Run (list byte) :=
  if in_bounds dst off n then
    ret (firstn (Z.to_nat off) dst ++ repeat c (Z.to_nat n)
           ++ skipn (Z.to_nat (off + n)) dst)
  else Fault OutOfBounds.

(** [*((uint8_t* )dst + off) = c]. *)
Definition poke (dst : list byte) (off : Z) (c : byte) : Run (list byte) :=
  if in_bounds dst off 1 then
    ret (firstn (Z.to_nat off) dst ++ c :: skipn (Z.to_nat (off + 1)) dst)
  else Fault OutOfBounds.

(** [dst[i] = w] on a [uint32_t] array kept in memory [dst]. *)
Definition store_word (e : endianness) (dst : list byte) (i : Z) (w : Z)
  : Run (list byte) :=
  if in_bounds dst (4 * i) 4 then
    ret (firstn (Z.to_nat (4 * i)) dst ++ store32 e w
           ++ skipn (Z.to_nat (4 * i + 4)) dst)
  else Fault OutOfBounds.

(** [byteSwap(buf, words)]: each of the first [words] words of the memory at
    [buf] is replaced by the little-endian reading of its four bytes.  The
    loop counts [words] down, so the recursion is on it. *)
Fixpoint byteSwap (e : endianness) (mem : list byte) (words : nat)
  {struct words} : Run (list byte) :=
  match words with
  | O => ret mem
  | S words' =>
      match mem with
      | p0 :: p1 :: p2 :: p3 :: rest =>
          rest' <- byteSwap e rest words' ;;
          ret (store32 e (le_word p0 p1 p2 p3) ++ rest')
      | _ => Fault OutOfBounds
      end
  end.

(** ** The accumulator *)

(** Modelled from the spec: the declaration of [struct md5Context] (md5.h)
    is not among the sources.  The fields are the ones the code uses:
    [buf], four 32-bit state words; [bytes], the byte counter, 64 bits wide
    as the spec's data model has it; [in], the 64-byte block buffer, which
    the code declares as sixteen [uint32_t] and fills through a
    [uint8_t*], kept here as its 64 bytes of memory. *)
Record md5Context : Type := {
  buf : list Z;
  bytes : Z;
  in_ : list byte
}.

(** What the C type guarantees of any object of type [md5Context],
    initialised or not. *)
Definition well_typed (ctx : md5Context) : Prop :=
  length (buf ctx) = 4%nat /\ 0 <= bytes ctx < 2 ^ 64 /\
  length (in_ ctx) = 64%nat.

Definition md5Init (ctx : md5Context) : md5Context :=
  {| buf := [0x67452301; 0xefcdab89; 0x98badcfe; 0x10325476];
     bytes := 0;
     in_ := in_ ctx |}.

(** The loop [for ( ; len >= 64; len -= 64)] of [md5Update]; [data] is what
    remains at the pointer [buf], and [len] is its length.  It yields the
    state words, the block buffer and the remaining input. *)
Fixpoint md5Update_loop (fuel : nat) (e : endianness)
    (st : list Z) (inb : list byte) (data : list byte)
  : Run (list Z * list byte * list byte) :=
  if Z.of_nat (length data) >=? 64 then
    match fuel with
    | O => Fault OutOfFuel
    | S fuel' =>
        inb <- memcpy inb 0 data 64 ;;
        inb <- byteSwap e inb 16 ;;
        st <- call_md5Transform st (load_words e inb) ;;
        md5Update_loop fuel' e st inb (skipn 64 data)
    end
  else ret (st, inb, data).

(** [md5Update(ctx, buf, len)]: [data] is the [len] bytes at [buf]. *)
Definition md5Update (e : endianness) (ctx : md5Context) (data : list byte)
  : Run md5Context :=
  let len := Z.of_nat (length data) in
  (* Space available in ctx->in (at least 1) *)
  let t := 64 - Z.land (bytes ctx) 0x3f in
  (* Update byte count *)
  let bytes' := u64 (bytes ctx + len) in
  if t >? len then
    inb <- memcpy (in_ ctx) (64 - t) data len ;;
    ret {| buf := buf ctx; bytes := bytes'; in_ := inb |}
  else
    (* First chunk is an odd size *)
    inb <- memcpy (in_ ctx) (64 - t) data t ;;
    inb <- byteSwap e inb 16 ;;
    st <- call_md5Transform (buf ctx) (load_words e inb) ;;
    let data := skipn (Z.to_nat t) data in
    (* Process data in 64-byte chunks *)
    '(st, inb, data) <- md5Update_loop (length data) e st inb data ;;
    (* Handle any remaining bytes of data. *)
    inb <- memcpy inb 0 data (Z.of_nat (length data)) ;;
    ret {| buf := st; bytes := bytes'; in_ := inb |}.

(** [memset(ctx, 0, sizeof( *ctx))]. *)
Definition cleared : md5Context :=
  {| buf := [0; 0; 0; 0]; bytes := 0; in_ := repeat x00 64 |}.

(** [md5Final] yields the digest and leaves the accumulator behind. *)
Definition md5Final (e : endianness) (ctx : md5Context)
  : Run (list byte * md5Context) :=
  (* Number of bytes in ctx->in *)
  let count := Z.land (bytes ctx) 0x3f in
  let p := count in
  (* Set the first char of padding to 0x80.  There is always room. *)
  inb <- poke (in_ ctx) p x80 ;;
  let p := p + 1 in
  (* Bytes of padding needed to make 56 bytes (-8..55) *)
  let count := 56 - 1 - count in
  '(st, inb, p, count) <-
    (if count <? 0 then
       (* Padding forces an extra block *)
       inb <- memset inb p x00 (count + 8) ;;
       inb <- byteSwap e inb 16 ;;
       st <- call_md5Transform (buf ctx) (load_words e inb) ;;
       ret (st, inb, 0, 56)
     else ret (buf ctx, inb, p, count)) ;;
  inb <- memset inb p x00 count ;;
  inb <- byteSwap e inb 14 ;;
  (* Append length in bits and transform *)
  inb <- store_word e inb 14 (Z.land (u64 (Z.shiftl (bytes ctx) 3)) 0xFFFFFFFF) ;;
  inb <- store_word e inb 15 (Z.land (Z.shiftr (bytes ctx) 29) 0xFFFFFFFF) ;;
  st <- call_md5Transform st (load_words e inb) ;;
  stmem <- byteSwap e (store_words e st) 4 ;;
  digest <- memcpy (repeat x00 16) 0 stmem 16 ;;
  ret (digest, cleared).

(** The one-shot [md5]; [context] is the uninitialised local variable. *)
Definition md5 (e : endianness) (context : md5Context) (data : list byte)
  : Run (list byte) :=
  let context := md5Init context in
  context <- md5Update e context data ;;
  '(digest, _) <- md5Final e context ;;
  ret digest.

(** A whole session on one accumulator: [md5Init], one [md5Update] per
    piece, in order, then [md5Final]. *)
Fixpoint md5Updates (e : endianness) (ctx : md5Context)
    (pieces : list (list byte)) : Run md5Context :=
  match pieces with
  | [] => ret ctx
  | piece :: pieces' =>
      ctx <- md5Update e ctx piece ;;
      md5Updates e ctx pieces'
  end.

Definition md5_session (e : endianness) (context : md5Context)
    (pieces : list (list byte)) : Run (list byte) :=
  ctx <- md5Updates e (md5Init context) pieces ;;
  '(digest, _) <- md5Final e ctx ;;
  ret digest.

(** ** Lower-case hexadecimal *)

Definition hex_digit (n : Z) : ascii :=
  nth (Z.to_nat n)
      ["0"; "1"; "2"; "3"; "4"; "5"; "6"; "7"; "8"; "9";
       "a"; "b"; "c"; "d"; "e"; "f"]%char "?"%char.

Fixpoint hex (bs : list byte) : String.string :=
  match bs with
  | [] => String.EmptyString
  | b :: bs' =>
      String.String (hex_digit (byte_val b / 16))
        (String.String (hex_digit (byte_val b mod 16)) (hex bs'))
  end.

Definition bytes_of_string (s : String.string) : list byte :=
  String.list_byte_of_string s.

(** ** The schedule of the compression step, as the specification words it

    Sixty-four rounds in four groups of sixteen.  Round [i] of group [g]
    consumes the word at [index g i], adds the constant [constant g i] and
    rotates left by [rotation g i]; the registers are then renamed
    [(a,b,c,d) -> (d,a,b,c)].  After the last round the registers are
    added to the state the step started from. *)

Module Schedule.

Definition rotate_left (x s : Z) : Z :=
  Z.lor (u32 (Z.shiftl x s)) (Z.shiftr x (32 - s)).

Definition F (g : nat) (b c d : Z) : Z :=
  match g with
  | 0%nat => Z.lxor d (Z.land b (Z.lxor c d))
  | 1%nat => Z.lxor c (Z.land d (Z.lxor b c))
  | 2%nat => Z.lxor (Z.lxor b c) d
  | _ => Z.lxor c (Z.lor b (u32 (Z.lnot d)))
  end.

Definition index (g i : nat) : nat :=
  match g with
  | 0%nat => i
  | 1%nat => (5 * i + 1) mod 16
  | 2%nat => (3 * i + 5) mod 16
  | _ => (7 * i) mod 16
  end%nat.

Definition rotations (g : nat) : list Z :=
  match g with
  | 0%nat => [7; 12; 17; 22]
  | 1%nat => [5; 9; 14; 20]
  | 2%nat => [4; 11; 16; 23]
  | _ => [6; 10; 15; 21]
  end.

Definition rotation (g i : nat) : Z := nth (i mod 4) (rotations g) 0.

Definition constants : list Z :=
  [ 0xd76aa478; 0xe8c7b756; 0x242070db; 0xc1bdceee;
    0xf57c0faf; 0x4787c62a; 0xa8304613; 0xfd469501;
    0x698098d8; 0x8b44f7af; 0xffff5bb1; 0x895cd7be;
    0x6b901122; 0xfd987193; 0xa679438e; 0x49b40821;
    0xf61e2562; 0xc040b340; 0x265e5a51; 0xe9b6c7aa;
    0xd62f105d; 0x02441453; 0xd8a1e681; 0xe7d3fbc8;
    0x21e1cde6; 0xc33707d6; 0xf4d50d87; 0x455a14ed;
    0xa9e3e905; 0xfcefa3f8; 0x676f02d9; 0x8d2a4c8a;
    0xfffa3942; 0x8771f681; 0x6d9d6122; 0xfde5380c;
    0xa4beea44; 0x4bdecfa9; 0xf6bb4b60; 0xbebfbc70;
    0x289b7ec6; 0xeaa127fa; 0xd4ef3085; 0x04881d05;
    0xd9d4d039; 0xe6db99e5; 0x1fa27cf8; 0xc4ac5665;
    0xf4292244; 0x432aff97; 0xab9423a7; 0xfc93a039;
    0x655b59c3; 0x8f0ccc92; 0xffeff47d; 0x85845dd1;
    0x6fa87e4f; 0xfe2ce6e0; 0xa3014314; 0x4e0811a1;
    0xf7537e82; 0xbd3af235; 0x2ad7d2bb; 0xeb86d391 ].

Definition constant (g i : nat) : Z := nth (16 * g + i) constants 0.

Definition registers : Type := (Z * Z * Z * Z)%type.

(** One round: [a' = b + rotate_left(a + F(b,c,d) + word[index] + constant,
    rotation)], then the roles move on. *)
Definition round (block : list Z) (g i : nat) (r : registers) : registers :=
  let '(a, b, c, d) := r in
  let a' :=
    u32 (b + rotate_left
               (u32 (a + F g b c d + nth (index g i) block 0 + constant g i))
               (rotation g i)) in
  (d, a', b, c).

(** The rounds [(g, i)] in the order they are run. *)
Definition rounds : list (nat * nat) :=
  flat_map (fun g => map (fun i => (g, i)) (seq 0 16)) (seq 0 4).

(** The registers added, modulo [2^32], to the state the step started
    from. *)
Definition add_back (state : list Z) (r : registers) : list Z :=
  let '(a, b, c, d) := r in
  [ u32 (nth 0 state 0 + a); u32 (nth 1 state 0 + b);
    u32 (nth 2 state 0 + c); u32 (nth 3 state 0 + d) ].

Definition compress (state block : list Z) : list Z :=
  let r0 := (nth 0 state 0, nth 1 state 0, nth 2 state 0, nth 3 state 0) in
  add_back state
    (fold_left (fun r gi => round block (fst gi) (snd gi) r) rounds r0).

End Schedule.

(** ** The stream, its blocks and its padding, as the specification words them *)

Module Spec.

(** The first [k] consecutive 64-byte blocks of [s]. *)
Fixpoint chunks (k : nat) (s : list byte) : list (list byte) :=
  match k with
  | O => []
  | S k' => firstn 64 s :: chunks k' (skipn 64 s)
  end.

(** The [floor(|s| / 64)] full blocks of [s], and the bytes after them. *)
Definition full_blocks (s : list byte) : list (list byte) :=
  chunks (length s / 64) s.

Definition leftover (s : list byte) : list byte :=
  skipn (64 * (length s / 64)) s.

(** The compression step run over a sequence of blocks, each read as
    sixteen little-endian words. *)
Definition compress_all (st : list Z) (blocks : list (list byte)) : list Z :=
  fold_left (fun st b => md5Transform st (le_words b)) blocks st.

Definition initial_state : list Z :=
  [0x67452301; 0xefcdab89; 0x98badcfe; 0x10325476].

(** Append zero bytes until the length modulo 64 equals 56. *)
Fixpoint zero_fill (fuel : nat) (s : list byte) : list byte :=
  if (length s mod 64 =? 56)%nat then s
  else match fuel with
       | O => s
       | S fuel' => zero_fill fuel' (s ++ [x00])
       end.

(** The total number of bits, of which only the low 64 are kept. *)
Definition bit_count (total_bytes : Z) : Z := (total_bytes * 8) mod 2 ^ 64.

(** The 8-byte trailer: two little-endian 32-bit words, low word first. *)
Definition trailer_words (total_bytes : Z) : list Z :=
  [bit_count total_bytes mod 2 ^ 32; bit_count total_bytes / 2 ^ 32].

Definition trailer (total_bytes : Z) : list byte :=
  le_bytes (trailer_words total_bytes).

(** The buffered bytes [pending] of a stream of [total_bytes] bytes, with
    the marker, the zero bytes and the trailer after them. *)
Definition pad (pending : list byte) (total_bytes : Z) : list byte :=
  zero_fill 64 (pending ++ [x80]) ++ trailer total_bytes.

(** The digest of a whole message: its padded blocks compressed from the
    state [st0], and the final state words laid out least significant byte
    first.  MD5 starts from [initial_state]. *)
Definition digest_from (st0 : list Z) (s : list byte) : list byte :=
  le_bytes (compress_all st0 (full_blocks (pad s (Z.of_nat (length s))))).

Definition digest (s : list byte) : list byte := digest_from initial_state s.

End Spec.

(** ** What an accumulator holds *)

(** The number of input bytes waiting in the block buffer, and these bytes. *)
Definition buffered (ctx : md5Context) : nat :=
  Z.to_nat (Z.land (bytes ctx) 0x3f).

Definition pending (ctx : md5Context) : list byte :=
  firstn (buffered ctx) (in_ ctx).

(** ** Statements about misuse, the counter and the buffer *)

Definition faults {A : Type} (r : Run A) : Prop := exists f, r = Fault f.

(** "Using an accumulator again after [md5Final], with no [md5Init] in
    between, is signalled": both operations fault on what [md5Final] left. *)
Definition reuse_is_signalled (e : endianness) (c0 : md5Context)
    (data : list byte) : Prop :=
  forall digest ctx calls,
    md5Final e (md5Init c0) = Ok (digest, ctx) calls ->
    faults (md5Update e ctx data) /\ faults (md5Final e ctx).

(** "After [md5Init] and the updates [pieces] the counter is the length of
    the stream." *)
Definition counter_is_length (e : endianness) (c0 : md5Context)
    (pieces : list (list byte)) : Prop :=
  forall ctx calls,
    md5Updates e (md5Init c0) pieces = Ok ctx calls ->
    bytes ctx = Z.of_nat (length (concat pieces)).

(** A piece of [2^63] zero bytes: a length a [size_t] of 64 bits holds. *)
Definition half_of_2_64 : list byte := repeat x00 (Z.to_nat (2 ^ 63)).

(** Two accumulators that differ at most in the stale part of the buffer. *)
Definition same_contents (c1 c2 : md5Context) : Prop :=
  buf c1 = buf c2 /\ bytes c1 = bytes c2 /\ pending c1 = pending c2 /\
  length (in_ c1) = 64%nat /\ length (in_ c2) = 64%nat.

(** The blocks [md5Final] compresses, spelled out: with fewer than 56
    bytes pending, one block (the pending bytes, the marker, zero bytes up
    to offset 56, the trailer); otherwise the current block zero-filled to
    its end, then a fresh block of 56 zero bytes and the trailer. *)
Definition padding_blocks (ctx : md5Context) : list (list byte) :=
  let n := buffered ctx in
  let t := Spec.trailer (bytes ctx) in
  if (n <? 56)%nat then
    [pending ctx ++ x80 :: repeat x00 (55 - n) ++ t]
  else
    [pending ctx ++ x80 :: repeat x00 (63 - n); repeat x00 56 ++ t].

(** What the operations do on an accumulator nobody initialised, and on the
    one [md5Final] leaves: they run, and the second digest is the one of
    the construction started from the all-zero state. *)
Definition runs_without_signal (e : endianness) (ctx : md5Context)
    (data : list byte) : Prop :=
  (exists ctx' calls, md5Update e ctx data = Ok ctx' calls) /\
  (exists digest calls, md5Final e ctx = Ok (digest, cleared) calls) /\
  (exists ctx' calls calls',
     md5Update e cleared data = Ok ctx' calls /\
     md5Final e ctx' =
     Ok (Spec.digest_from [0; 0; 0; 0] data, cleared) calls').

(** An accumulator with 60 bytes pending, for trying the two-block case. *)
Definition pending_60 : md5Context :=
  {| buf := Spec.initial_state; bytes := 60; in_ := repeat x61 64 |}.

(** The buffering invariant, for an accumulator [ctx] reached by absorbing
    the stream [s], the compression step having been called on [calls]:
    the counter is the length of [s] modulo [2^64]; its remainder modulo 64
    is the number of pending bytes; the compression step was called on
    exactly the first [|s| / 64] blocks of [s]; the pending bytes are the
    rest of [s]; and nothing the operations do afterwards depends on the
    buffer beyond the pending bytes. *)
Definition buffering_invariant (e : endianness) (s : list byte)
    (ctx : md5Context) (calls : list (list Z)) : Prop :=
  bytes ctx = Z.of_nat (length s) mod 2 ^ 64 /\
  (Z.of_nat (length s) < 2 ^ 64 -> bytes ctx = Z.of_nat (length s)) /\
  0 <= bytes ctx mod 64 < 64 /\
  bytes ctx mod 64 = Z.of_nat (length s mod 64) /\
  calls = map le_words (Spec.chunks (length s / 64) s) /\
  buf ctx =
    Spec.compress_all Spec.initial_state (Spec.chunks (length s / 64) s) /\
  length (in_ ctx) = 64%nat /\
  firstn (length s mod 64) (in_ ctx) = skipn (64 * (length s / 64)) s /\
  (forall ctx2, same_contents ctx ctx2 ->
     md5Final e ctx2 = md5Final e ctx /\
     forall data, exists c1 c2 calls',
       md5Update e ctx data = Ok c1 calls' /\
       md5Update e ctx2 data = Ok c2 calls' /\
       same_contents c1 c2).

(** The digest a finished run hands out, if any. *)
Definition digest_of (r : Run (list byte)) : option (list byte) :=
  match r with
  | Ok d _ => Some d
  | Fault _ => None
  end.

(** ** Further statements: words, well-formed accumulators, calls *)

(** The selection function that the source keeps in a comment beside the
    [F1] it uses: [// #define F1(x, y, z) (x & y | ~x & z)]. *)
Definition F1_plain (x y z : Z) : Z :=
  Z.lor (Z.land x y) (Z.land (not32 x) z).

(** A value a [uint32_t] holds. *)
Definition word32 (w : Z) : Prop := 0 <= w < 2 ^ 32.

(** An accumulator as the C types make it: four 32-bit state words, a
    64-bit counter, 64 bytes of buffer. *)
Definition well_formed (ctx : md5Context) : Prop :=
  well_typed ctx /\ Forall word32 (buf ctx).

(** A message with its padding: the marker, the zero bytes that bring the
    length to 56 modulo 64, and the 8-byte bit count. *)
Definition padded_message (data : list byte) : list byte :=
  data ++ x80 :: repeat x00 ((119 - length data mod 64) mod 64)
       ++ Spec.trailer (Z.of_nat (length data)).

(** The calls of the compression step a run recorded. *)
Definition calls_of {A : Type} (r : Run A) : list (list Z) :=
  match r with
  | Ok _ calls => calls
  | Fault _ => []
  end.

(** * Properties *)

(** Division and remainder by a constant are linear arithmetic. *)
Ltac Zify.zify_post_hook ::= Z.to_euclidean_division_equations.

(** ** Bytes and words *)

Section WordFacts.

Lemma byte_val_range (b : byte) : 0 <= byte_val b < 256.
Proof.
  unfold byte_val. pose proof (Byte.to_N_bounded b). lia.
Qed.

Lemma byte_val_to_byte (z : Z) : byte_val (to_byte z) = z mod 256.
Proof.
  unfold byte_val, to_byte.
  assert (Hr : 0 <= z mod 256 < 256) by (apply Z.mod_pos_bound; lia).
  destruct (Byte.of_N (Z.to_N (z mod 256))) as [b|] eqn:Hb.
  - apply Byte.to_of_N in Hb. rewrite Hb. apply Z2N.id. lia.
  - apply Byte.of_N_None_iff in Hb. lia.
Qed.

Lemma to_byte_byte_val (b : byte) : to_byte (byte_val b) = b.
Proof.
  unfold to_byte, byte_val.
  pose proof (Byte.to_N_bounded b) as Hb.
  rewrite Z.mod_small by lia.
  rewrite N2Z.id, Byte.of_to_N. reflexivity.
Qed.

Lemma to_byte_mod (z : Z) : to_byte (z mod 256) = to_byte z.
Proof.
  unfold to_byte. rewrite Z.mod_mod by lia. reflexivity.
Qed.

(** A multiple of [2^n] and a number below [2^n] share no bit. *)
Lemma lor_disjoint (a b n : Z) :
  0 <= n -> a mod 2 ^ n = 0 -> 0 <= b < 2 ^ n -> Z.lor a b = a + b.
Proof.
  intros Hn Ha Hb.
  rewrite <- (Z.add_lor_land a b).
  assert (Hz : Z.land a b = 0); [ | rewrite Hz; lia ].
  apply Z.bits_inj'. intros k Hk.
  rewrite Z.land_spec, Z.bits_0.
  destruct (Z.lt_ge_cases k n) as [Hlt|Hge].
  - rewrite <- (Z.mod_pow2_bits_low a n k) by lia.
    rewrite Ha, Z.bits_0. reflexivity.
  - rewrite <- (Z.mod_small b (2 ^ n)) by lia.
    rewrite Z.mod_pow2_bits_high by lia. apply andb_false_r.
Qed.

Lemma le_word_sum (p0 p1 p2 p3 : byte) :
  le_word p0 p1 p2 p3 =
  byte_val p0 + 256 * byte_val p1 + 65536 * byte_val p2
  + 16777216 * byte_val p3.
Proof.
  unfold le_word, u32.
  pose proof (byte_val_range p0). pose proof (byte_val_range p1).
  pose proof (byte_val_range p2). pose proof (byte_val_range p3).
  rewrite !Z.shiftl_mul_pow2 by lia.
  change (2 ^ 24) with 16777216. change (2 ^ 16) with 65536.
  change (2 ^ 8) with 256. change (2 ^ 32) with 4294967296.
  rewrite !Z.mod_small by lia.
  rewrite (lor_disjoint (byte_val p3 * 16777216) _ 24) by
    (try apply Z.mod_mul; lia).
  rewrite (lor_disjoint _ (byte_val p1 * 256) 16);
    [ | lia | change (2 ^ 16) with 65536;
            replace (byte_val p3 * 16777216 + byte_val p2 * 65536)
              with ((byte_val p3 * 256 + byte_val p2) * 65536) by lia;
            apply Z.mod_mul; lia
          | change (2 ^ 16) with 65536; lia ].
  rewrite (lor_disjoint _ (byte_val p0) 8);
    [ lia | lia
    | change (2 ^ 8) with 256;
      replace (byte_val p3 * 16777216 + byte_val p2 * 65536 + byte_val p1 * 256)
        with ((byte_val p3 * 65536 + byte_val p2 * 256 + byte_val p1) * 256)
        by lia;
      apply Z.mod_mul; lia
    | change (2 ^ 8) with 256; lia ].
Qed.

Lemma le_word_range (p0 p1 p2 p3 : byte) : 0 <= le_word p0 p1 p2 p3 < 2 ^ 32.
Proof.
  rewrite le_word_sum.
  pose proof (byte_val_range p0). pose proof (byte_val_range p1).
  pose proof (byte_val_range p2). pose proof (byte_val_range p3).
  change (2 ^ 32) with 4294967296. lia.
Qed.

Lemma byte_of_le_word (p0 p1 p2 p3 : byte) :
  byte_of (le_word p0 p1 p2 p3) 0 = p0 /\
  byte_of (le_word p0 p1 p2 p3) 1 = p1 /\
  byte_of (le_word p0 p1 p2 p3) 2 = p2 /\
  byte_of (le_word p0 p1 p2 p3) 3 = p3.
Proof.
  unfold byte_of. rewrite le_word_sum.
  pose proof (byte_val_range p0). pose proof (byte_val_range p1).
  pose proof (byte_val_range p2). pose proof (byte_val_range p3).
  rewrite !Z.shiftr_div_pow2 by lia.
  change (2 ^ (8 * 0)) with 1. change (2 ^ (8 * 1)) with 256.
  change (2 ^ (8 * 2)) with 65536. change (2 ^ (8 * 3)) with 16777216.
  repeat split.
  - rewrite <- (to_byte_byte_val p0) at 2. rewrite <- to_byte_mod.
    f_equal. rewrite Z.div_1_r.
    rewrite <- (Z.mod_small (byte_val p0) 256) at 2 by lia.
    Z.div_mod_to_equations. lia.
  - rewrite <- (to_byte_byte_val p1) at 2. rewrite <- to_byte_mod.
    f_equal. Z.div_mod_to_equations. lia.
  - rewrite <- (to_byte_byte_val p2) at 2. rewrite <- to_byte_mod.
    f_equal. Z.div_mod_to_equations. lia.
  - rewrite <- (to_byte_byte_val p3) at 2. rewrite <- to_byte_mod.
    f_equal. Z.div_mod_to_equations. lia.
Qed.

Lemma le_word_byte_of (w : Z) :
  le_word (byte_of w 0) (byte_of w 1) (byte_of w 2) (byte_of w 3) = u32 w.
Proof.
  rewrite le_word_sum. unfold byte_of, u32.
  rewrite !byte_val_to_byte.
  rewrite !Z.shiftr_div_pow2 by lia.
  change (2 ^ (8 * 0)) with 1. change (2 ^ (8 * 1)) with 256.
  change (2 ^ (8 * 2)) with 65536. change (2 ^ (8 * 3)) with 16777216.
  change (2 ^ 32) with 4294967296.
  Z.div_mod_to_equations. lia.
Qed.

Lemma byte_of_u32 (w i : Z) : 0 <= i < 4 -> byte_of (u32 w) i = byte_of w i.
Proof.
  intros Hi. unfold byte_of, u32.
  rewrite <- (to_byte_mod (Z.shiftr (w mod 2 ^ 32) (8 * i))).
  rewrite <- (to_byte_mod (Z.shiftr w (8 * i))). f_equal.
  rewrite !Z.shiftr_div_pow2 by lia.
  assert (Hi' : i = 0 \/ i = 1 \/ i = 2 \/ i = 3) by lia.
  change (2 ^ 32) with 4294967296.
  destruct Hi' as [-> | [-> | [-> | ->]]];
    [ change (2 ^ (8 * 0)) with 1 | change (2 ^ (8 * 1)) with 256
    | change (2 ^ (8 * 2)) with 65536 | change (2 ^ (8 * 3)) with 16777216 ];
    Z.div_mod_to_equations; lia.
Qed.

End WordFacts.

(** ** The compression step against its schedule *)

Section ScheduleFacts.

Lemma u32_idem (x : Z) : u32 (u32 x) = u32 x.
Proof. unfold u32. apply Z.mod_mod. discriminate. Qed.

Lemma u32_add_l (x y : Z) : u32 (u32 x + y) = u32 (x + y).
Proof. unfold u32. apply Z.add_mod_idemp_l. discriminate. Qed.

Lemma u32_add_r (x y : Z) : u32 (x + u32 y) = u32 (x + y).
Proof. unfold u32. apply Z.add_mod_idemp_r. discriminate. Qed.

(** One [MD5STEP] of group [g] is one round of the schedule. *)
Lemma MD5STEP_round (f : Z -> Z -> Z -> Z) (g : nat) (a b c d w k s : Z) :
  f b c d = Schedule.F g b c d ->
  MD5STEP f a b c d w k s =
  u32 (b + Schedule.rotate_left (u32 (a + Schedule.F g b c d + w + k)) s).
Proof.
  intros Hf. unfold MD5STEP, Schedule.rotate_left. rewrite Hf.
  cbv zeta.
  replace (u32 (a + u32 (u32 (Schedule.F g b c d + w) + k)))
    with (u32 (a + Schedule.F g b c d + w + k))
    by (unfold u32; change (2 ^ 32) with 4294967296; lia).
  f_equal. apply Z.add_comm.
Qed.

Lemma round_MD5STEP (block : list Z) (g i : nat)
    (f : Z -> Z -> Z -> Z) (a b c d : Z) :
  f b c d = Schedule.F g b c d ->
  Schedule.round block g i (a, b, c, d) =
  (d,
   MD5STEP f a b c d (nth (Schedule.index g i) block 0)
     (Schedule.constant g i) (Schedule.rotation g i),
   b, c).
Proof.
  intros Hf. unfold Schedule.round.
  rewrite <- (MD5STEP_round f g) by exact Hf. reflexivity.
Qed.

(** One assignment of the source against one round of the schedule, the
    rest of both being compared under a name for the new register. *)
Lemma round_lockstep (state block : list Z) (g i : nat)
    (rs : list (nat * nat)) (f : Z -> Z -> Z -> Z) (a b c d w k s : Z)
    (rest : Z -> list Z) :
  f b c d = Schedule.F g b c d ->
  w = nth (Schedule.index g i) block 0 ->
  k = Schedule.constant g i ->
  s = Schedule.rotation g i ->
  (forall x,
     rest x =
     Schedule.add_back state
       (fold_left (fun r gi => Schedule.round block (fst gi) (snd gi) r)
          rs (d, x, b, c))) ->
  Let_In (MD5STEP f a b c d w k s) rest =
  Schedule.add_back state
    (fold_left (fun r gi => Schedule.round block (fst gi) (snd gi) r)
       ((g, i) :: rs) (a, b, c, d)).
Proof.
  intros Hf -> -> -> Hrest. unfold Let_In. rewrite Hrest.
  cbn [fold_left fst snd].
  rewrite (round_MD5STEP block g i f a b c d Hf). reflexivity.
Qed.

Lemma md5Transform_schedule (state block : list Z) :
  md5Transform state block = Schedule.compress state block.
Proof.
  unfold md5Transform, Schedule.compress, word_at.
  let r := eval vm_compute in Schedule.rounds in
  change Schedule.rounds with r.
  do 64 (apply round_lockstep; [ reflexivity .. | intros ?; cbv beta ]).
  reflexivity.
Qed.

End ScheduleFacts.

(** ** Words in memory *)

Section MemoryFacts.

Variable e : endianness.

Lemma length_store32 (w : Z) : length (store32 e w) = 4%nat.
Proof. destruct e; reflexivity. Qed.

Lemma load32_store32 (w : Z) (rest : list byte) :
  load_words e (store32 e w ++ rest) = u32 w :: load_words e rest.
Proof.
  destruct e; cbn [store32 app load_words load32]; f_equal;
    apply le_word_byte_of.
Qed.

Lemma load_words_store_words (ws : list Z) (rest : list byte) :
  load_words e (store_words e ws ++ rest) = map u32 ws ++ load_words e rest.
Proof.
  unfold store_words.
  induction ws as [|w ws IH]; [reflexivity|].
  cbn [flat_map map]. rewrite <- !app_assoc, load32_store32, IH.
  reflexivity.
Qed.

Lemma length_store_words (ws : list Z) :
  length (store_words e ws) = (4 * length ws)%nat.
Proof.
  unfold store_words. induction ws as [|w ws IH]; [reflexivity|].
  cbn [flat_map]. rewrite length_app, length_store32, IH. simpl. lia.
Qed.

(** Storing the little-endian reading of a stored word leaves the bytes of
    the word in little-endian order, on either kind of host: the step
    [byteSwap(ctx->buf, 4)] of [md5Final]. *)
Lemma store32_swap_store32 (w : Z) :
  match store32 e w with
  | [q0; q1; q2; q3] => store32 e (le_word q0 q1 q2 q3)
  | _ => []
  end = le_bytes32 w.
Proof.
  unfold le_bytes32.
  destruct e; cbn [store32].
  - rewrite le_word_byte_of, !byte_of_u32 by lia. reflexivity.
  - destruct (byte_of_le_word (byte_of w 3) (byte_of w 2) (byte_of w 1)
                (byte_of w 0)) as (H0 & H1 & H2 & H3).
    rewrite H0, H1, H2, H3. reflexivity.
Qed.

End MemoryFacts.

Lemma map_u32_le_words (bs : list byte) : map u32 (le_words bs) = le_words bs.
Proof.
  remember (length bs) as n eqn:Hn.
  assert (Hle : (length bs <= n)%nat) by lia. clear Hn.
  revert bs Hle. induction n as [|n IH]; intros bs Hle;
    destruct bs as [|p0 [|p1 [|p2 [|p3 rest]]]]; try reflexivity;
    simpl in Hle; try lia.
  cbn [le_words map]. rewrite IH by lia.
  f_equal. unfold u32. apply Z.mod_small, le_word_range.
Qed.

Lemma le_words_app (a b : list byte) (k : nat) :
  length a = (4 * k)%nat -> le_words (a ++ b) = le_words a ++ le_words b.
Proof.
  revert a. induction k as [|k IH]; intros a Ha.
  - destruct a; [reflexivity | simpl in Ha; lia].
  - destruct a as [|p0 [|p1 [|p2 [|p3 rest]]]]; simpl in Ha; try lia.
    cbn [app le_words]. rewrite IH by lia. reflexivity.
Qed.

Lemma length_le_words (a : list byte) (k : nat) :
  length a = (4 * k)%nat -> length (le_words a) = k.
Proof.
  revert a. induction k as [|k IH]; intros a Ha.
  - destruct a; [reflexivity | simpl in Ha; lia].
  - destruct a as [|p0 [|p1 [|p2 [|p3 rest]]]]; simpl in Ha; try lia.
    cbn [le_words length]. rewrite IH by lia. reflexivity.
Qed.

Lemma length_le_bytes (ws : list Z) :
  length (le_bytes ws) = (4 * length ws)%nat.
Proof.
  unfold le_bytes. induction ws as [|w ws IH]; [reflexivity|].
  cbn [flat_map]. rewrite length_app, IH. simpl. lia.
Qed.

Lemma le_words_le_bytes (ws : list Z) (rest : list byte) :
  le_words (le_bytes ws ++ rest) = map u32 ws ++ le_words rest.
Proof.
  unfold le_bytes. induction ws as [|w ws IH]; [reflexivity|].
  cbn [flat_map map le_bytes32 app le_words]. rewrite IH.
  rewrite le_word_byte_of. reflexivity.
Qed.

(** ** The monad and the checked memory operations *)

Lemma bind_Ok {A B : Type} (a : A) (calls : list (list Z)) (k : A -> Run B)
    (b : B) (calls' : list (list Z)) :
  k a = Ok b calls' -> bind (Ok a calls) k = Ok b (calls ++ calls').
Proof. intros H. unfold bind. rewrite H. reflexivity. Qed.

Lemma bind_ret {A B : Type} (a : A) (k : A -> Run B) : bind (ret a) k = k a.
Proof. unfold bind, ret. destruct (k a); reflexivity. Qed.

Lemma memcpy_ok (dst : list byte) (off : nat) (src : list byte) (n : nat) :
  (off + n <= length dst)%nat -> (n <= length src)%nat ->
  memcpy dst (Z.of_nat off) src (Z.of_nat n) =
  ret (firstn off dst ++ firstn n src ++ skipn (off + n) dst).
Proof.
  intros Hd Hs. unfold memcpy, in_bounds.
  replace ((0 <=? Z.of_nat off) && (0 <=? Z.of_nat n)
           && (Z.of_nat off + Z.of_nat n <=? Z.of_nat (length dst))
           && (Z.of_nat n <=? Z.of_nat (length src))) with true
    by (symmetry; rewrite !andb_true_iff, !Z.leb_le; lia).
  rewrite <- Nat2Z.inj_add, !Nat2Z.id. reflexivity.
Qed.

Lemma memset_ok (dst : list byte) (off : nat) (c : byte) (n : nat) :
  (off + n <= length dst)%nat ->
  memset dst (Z.of_nat off) c (Z.of_nat n) =
  ret (firstn off dst ++ repeat c n ++ skipn (off + n) dst).
Proof.
  intros Hd. unfold memset, in_bounds.
  replace ((0 <=? Z.of_nat off) && (0 <=? Z.of_nat n)
           && (Z.of_nat off + Z.of_nat n <=? Z.of_nat (length dst))) with true
    by (symmetry; rewrite !andb_true_iff, !Z.leb_le; lia).
  rewrite <- Nat2Z.inj_add, !Nat2Z.id. reflexivity.
Qed.

Lemma poke_ok (dst : list byte) (off : nat) (c : byte) :
  (off < length dst)%nat ->
  poke dst (Z.of_nat off) c = ret (firstn off dst ++ c :: skipn (off + 1) dst).
Proof.
  intros Hd. unfold poke, in_bounds.
  replace ((0 <=? Z.of_nat off) && (0 <=? 1)
           && (Z.of_nat off + 1 <=? Z.of_nat (length dst))) with true
    by (symmetry; rewrite !andb_true_iff, !Z.leb_le; lia).
  change 1 with (Z.of_nat 1). rewrite <- Nat2Z.inj_add, !Nat2Z.id.
  reflexivity.
Qed.

Lemma store_word_ok (e : endianness) (dst : list byte) (i : nat) (w : Z) :
  (4 * i + 4 <= length dst)%nat ->
  store_word e dst (Z.of_nat i) w =
  ret (firstn (4 * i) dst ++ store32 e w ++ skipn (4 * i + 4) dst).
Proof.
  intros Hd. unfold store_word, in_bounds.
  replace ((0 <=? 4 * Z.of_nat i) && (0 <=? 4)
           && (4 * Z.of_nat i + 4 <=? Z.of_nat (length dst))) with true
    by (symmetry; rewrite !andb_true_iff, !Z.leb_le; lia).
  replace (4 * Z.of_nat i) with (Z.of_nat (4 * i)) by lia.
  change 4 with (Z.of_nat 4). rewrite <- Nat2Z.inj_add, !Nat2Z.id.
  reflexivity.
Qed.

Lemma byteSwap_ok (e : endianness) (words : nat) (mem : list byte) :
  (4 * words <= length mem)%nat ->
  byteSwap e mem words =
  ret (store_words e (le_words (firstn (4 * words) mem))
         ++ skipn (4 * words) mem).
Proof.
  revert mem. induction words as [|n IH]; intros mem Hm.
  - reflexivity.
  - destruct mem as [|p0 [|p1 [|p2 [|p3 rest]]]]; simpl in Hm; try lia.
    cbn [byteSwap]. rewrite IH by lia. rewrite bind_ret.
    replace (4 * S n)%nat with (S (S (S (S (4 * n))))) by lia.
    cbn [firstn skipn le_words store_words flat_map].
    rewrite <- app_assoc. reflexivity.
Qed.

(** ** Blocks of a stream *)

Section BlockFacts.

Import Spec.

Lemma full_blocks_short (s : list byte) :
  (length s < 64)%nat -> full_blocks s = [] /\ leftover s = s.
Proof.
  intros H. unfold full_blocks, leftover.
  replace (length s / 64)%nat with 0%nat by lia. split; reflexivity.
Qed.

Lemma full_blocks_step (s : list byte) :
  (64 <= length s)%nat ->
  full_blocks s = firstn 64 s :: full_blocks (skipn 64 s).
Proof.
  intros H. unfold full_blocks. rewrite length_skipn.
  replace (length s / 64)%nat with (S ((length s - 64) / 64)) by lia.
  reflexivity.
Qed.

Lemma leftover_step (s : list byte) :
  (64 <= length s)%nat -> leftover s = leftover (skipn 64 s).
Proof.
  intros H. unfold leftover. rewrite length_skipn, skipn_skipn.
  f_equal. lia.
Qed.

Lemma length_leftover (s : list byte) :
  length (leftover s) = (length s mod 64)%nat.
Proof. unfold leftover. rewrite length_skipn. lia. Qed.

(** Absorbing [a] after [s]: the blocks of [s], then the blocks of what
    [s] left over followed by [a]. *)
Lemma full_blocks_app (s a : list byte) :
  full_blocks (s ++ a) = full_blocks s ++ full_blocks (leftover s ++ a) /\
  leftover (s ++ a) = leftover (leftover s ++ a).
Proof.
  remember (length s) as n eqn:Hn.
  assert (Hle : (length s <= n)%nat) by lia. clear Hn.
  revert s Hle. induction n as [|n IH]; intros s Hle.
  - destruct s; [ | simpl in Hle; lia ]. split; reflexivity.
  - destruct (Nat.lt_ge_cases (length s) 64) as [Hlt|Hge].
    + destruct (full_blocks_short s Hlt) as [-> ->]. split; reflexivity.
    + assert (Hl : (length (skipn 64 s) <= n)%nat)
        by (rewrite length_skipn; lia).
      destruct (IH (skipn 64 s) Hl) as [IHb IHl].
      rewrite (full_blocks_step (s ++ a)) by (rewrite length_app; lia).
      rewrite (leftover_step (s ++ a)) by (rewrite length_app; lia).
      rewrite (full_blocks_step s Hge), (leftover_step s Hge).
      rewrite firstn_app, skipn_app.
      replace (64 - length s)%nat with 0%nat by lia.
      rewrite firstn_O, skipn_O, app_nil_r.
      rewrite IHb, IHl. split; reflexivity.
Qed.

Lemma compress_all_app (st : list Z) (b1 b2 : list (list byte)) :
  compress_all st (b1 ++ b2) = compress_all (compress_all st b1) b2.
Proof. unfold compress_all. apply fold_left_app. Qed.

Lemma length_full_blocks (s : list byte) :
  length (full_blocks s) = (length s / 64)%nat.
Proof.
  unfold full_blocks. generalize (length s / 64)%nat as k.
  intros k. revert s. induction k as [|k IH]; intros s; [reflexivity|].
  cbn [chunks length]. rewrite IH. reflexivity.
Qed.

(** The blocks followed by the leftover are the stream itself. *)
Lemma concat_full_blocks (s : list byte) :
  concat (full_blocks s) ++ leftover s = s.
Proof.
  remember (length s) as n eqn:Hn.
  assert (Hle : (length s <= n)%nat) by lia. clear Hn.
  revert s Hle. induction n as [|n IH]; intros s Hle.
  - destruct s; [ reflexivity | simpl in Hle; lia ].
  - destruct (Nat.lt_ge_cases (length s) 64) as [Hlt|Hge].
    + destruct (full_blocks_short s Hlt) as [-> ->]. reflexivity.
    + rewrite (full_blocks_step s Hge), (leftover_step s Hge).
      cbn [concat]. rewrite <- app_assoc, IH
        by (rewrite length_skipn; lia).
      apply firstn_skipn.
Qed.

Lemma full_blocks_length_64 (s : list byte) :
  Forall (fun b => length b = 64%nat) (full_blocks s).
Proof.
  remember (length s) as n eqn:Hn.
  assert (Hle : (length s <= n)%nat) by lia. clear Hn.
  revert s Hle. induction n as [|n IH]; intros s Hle.
  - destruct s; [ constructor | simpl in Hle; lia ].
  - destruct (Nat.lt_ge_cases (length s) 64) as [Hlt|Hge].
    + destruct (full_blocks_short s Hlt) as [-> _]. constructor.
    + rewrite (full_blocks_step s Hge). constructor.
      * rewrite length_firstn. lia.
      * apply IH. rewrite length_skipn. lia.
Qed.

End BlockFacts.

(** ** [md5Update] *)

Section UpdateFacts.

Import Spec.
Variable e : endianness.

(** A full block buffer through [byteSwap(ctx->in, 16)]: afterwards the
    sixteen words read on the host are the little-endian words of the
    bytes, whatever the host. *)
Lemma swap_block (m : list byte) :
  length m = 64%nat ->
  byteSwap e m 16 = ret (store_words e (le_words m)) /\
  load_words e (store_words e (le_words m)) = le_words m /\
  length (store_words e (le_words m)) = 64%nat.
Proof.
  intros Hm. repeat split.
  - rewrite byteSwap_ok by (rewrite Hm; simpl; lia).
    change (4 * 16)%nat with 64%nat.
    rewrite firstn_all2, skipn_all2, app_nil_r by lia. reflexivity.
  - rewrite <- (app_nil_r (store_words e (le_words m))).
    rewrite load_words_store_words, map_u32_le_words. apply app_nil_r.
  - rewrite length_store_words, (length_le_words m 16) by (rewrite Hm; reflexivity).
    reflexivity.
Qed.

Lemma md5Update_loop_eq (fuel : nat) (st : list Z) (inb data : list byte) :
  md5Update_loop fuel e st inb data =
  if Z.of_nat (length data) >=? 64 then
    match fuel with
    | O => Fault OutOfFuel
    | S fuel' =>
        inb <- memcpy inb 0 data 64 ;;
        inb <- byteSwap e inb 16 ;;
        st <- call_md5Transform st (load_words e inb) ;;
        md5Update_loop fuel' e st inb (skipn 64 data)
    end
  else ret (st, inb, data).
Proof. destruct fuel; reflexivity. Qed.

(** Copying a whole block over the block buffer. *)
Lemma memcpy_block (inb data : list byte) :
  length inb = 64%nat -> (64 <= length data)%nat ->
  memcpy inb 0 data 64 = ret (firstn 64 data).
Proof.
  intros Hi Hd.
  change 0 with (Z.of_nat 0). change 64 with (Z.of_nat 64).
  rewrite memcpy_ok by lia.
  rewrite firstn_O, skipn_all2, app_nil_r by (simpl; lia). reflexivity.
Qed.

(** The loop never runs out of fuel when given one unit per block, never
    leaves the buffer, and compresses exactly the full blocks of [data]. *)
Lemma md5Update_loop_spec (fuel : nat) :
  forall (st : list Z) (inb data : list byte),
    length inb = 64%nat -> (length data / 64 <= fuel)%nat ->
    exists inb',
      md5Update_loop fuel e st inb data =
      Ok (compress_all st (full_blocks data), inb', leftover data)
         (map le_words (full_blocks data)) /\
      length inb' = 64%nat.
Proof.
  induction fuel as [|fuel IH]; intros st inb data Hi Hf;
    rewrite md5Update_loop_eq.
  - assert (Hs : (length data < 64)%nat) by lia.
    destruct (full_blocks_short data Hs) as [-> ->].
    replace (Z.of_nat (length data) >=? 64) with false
      by (symmetry; rewrite Z.geb_leb; apply Z.leb_gt; lia).
    exists inb. split; [reflexivity | assumption].
  - destruct (Nat.lt_ge_cases (length data) 64) as [Hs|Hge].
    + destruct (full_blocks_short data Hs) as [-> ->].
      replace (Z.of_nat (length data) >=? 64) with false
        by (symmetry; rewrite Z.geb_leb; apply Z.leb_gt; lia).
      exists inb. split; [reflexivity | assumption].
    + replace (Z.of_nat (length data) >=? 64) with true
        by (symmetry; rewrite Z.geb_leb; apply Z.leb_le; lia).
      rewrite memcpy_block, bind_ret by assumption.
      assert (Hb : length (firstn 64 data) = 64%nat)
        by (rewrite length_firstn; lia).
      destruct (swap_block _ Hb) as (Hswap & Hload & Hlen).
      rewrite Hswap, bind_ret, Hload.
      destruct (IH (md5Transform st (le_words (firstn 64 data)))
                  (store_words e (le_words (firstn 64 data)))
                  (skipn 64 data) Hlen) as (inb' & Hrun & Hlen').
      { rewrite length_skipn. lia. }
      exists inb'. split; [ | assumption ].
      unfold call_md5Transform, bind. rewrite Hrun.
      rewrite (full_blocks_step data Hge), (leftover_step data Hge).
      reflexivity.
Qed.

Lemma land_63 (b : Z) : Z.land b 0x3f = b mod 64.
Proof. change 0x3f with (Z.ones 6). apply Z.land_ones. lia. Qed.

Lemma buffered_spec (ctx : md5Context) :
  Z.land (bytes ctx) 0x3f = Z.of_nat (buffered ctx) /\ (buffered ctx < 64)%nat.
Proof.
  unfold buffered. rewrite land_63. split; lia.
Qed.

Lemma length_pending (ctx : md5Context) :
  length (in_ ctx) = 64%nat -> length (pending ctx) = buffered ctx.
Proof.
  intros Hi. unfold pending. rewrite length_firstn.
  pose proof (buffered_spec ctx). lia.
Qed.

(** What one call of [md5Update] does to an accumulator, in terms of the
    bytes it holds: the pending bytes followed by the new data are cut into
    blocks, every full block is compressed, the rest stays pending. *)
Lemma md5Update_spec (ctx : md5Context) (data : list byte) :
  length (in_ ctx) = 64%nat ->
  exists ctx',
    md5Update e ctx data =
    Ok ctx' (map le_words (full_blocks (pending ctx ++ data))) /\
    buf ctx' = compress_all (buf ctx) (full_blocks (pending ctx ++ data)) /\
    bytes ctx' = u64 (bytes ctx + Z.of_nat (length data)) /\
    length (in_ ctx') = 64%nat /\
    pending ctx' = leftover (pending ctx ++ data).
Proof.
  intros Hi.
  destruct (buffered_spec ctx) as [Hn Hlt].
  pose proof (length_pending ctx Hi) as Hp.
  assert (Hfill : forall ctx',
    bytes ctx' = u64 (bytes ctx + Z.of_nat (length data)) ->
    buffered ctx' = (length (pending ctx ++ data) mod 64)%nat).
  { intros ctx' Hb. unfold buffered in *. rewrite land_63 in *.
    rewrite Hb, length_app, Hp. unfold u64, buffered.
    change (2 ^ 64) with 18446744073709551616. lia. }
  unfold md5Update. rewrite Hn.
  set (n := buffered ctx) in *.
  replace (64 - (64 - Z.of_nat n)) with (Z.of_nat n) by lia.
  destruct (64 - Z.of_nat n >? Z.of_nat (length data)) eqn:Hcmp.
  - (* the data fits in the buffer *)
    apply Z.gtb_lt in Hcmp.
    rewrite memcpy_ok, bind_ret by lia.
    assert (Hshort : (length (pending ctx ++ data) < 64)%nat)
      by (rewrite length_app; lia).
    destruct (full_blocks_short _ Hshort) as [-> ->].
    eexists. split; [reflexivity|].
    cbn [buf bytes in_]. repeat split.
    + rewrite firstn_all, !length_app, length_firstn, length_skipn. lia.
    + unfold pending at 1. cbn [in_].
      rewrite Hfill by reflexivity.
      rewrite Nat.mod_small by assumption.
      rewrite firstn_all, app_assoc.
      change (firstn n (in_ ctx)) with (pending ctx).
      rewrite firstn_app, firstn_all, Nat.sub_diag, firstn_O.
      apply app_nil_r.
  - (* the first chunk completes a block *)
    assert (Hge : (64 - n <= length data)%nat).
    { destruct (Z.gtb_spec (64 - Z.of_nat n) (Z.of_nat (length data))); 
        [discriminate | lia]. }
    replace (64 - Z.of_nat n) with (Z.of_nat (64 - n)) by lia.
    rewrite memcpy_ok, bind_ret by lia.
    rewrite Nat2Z.id.
    assert (Hlong : (64 <= length (pending ctx ++ data))%nat)
      by (rewrite length_app; lia).
    assert (Hfirst : firstn n (in_ ctx) ++ firstn (64 - n) data
                       ++ skipn (n + (64 - n)) (in_ ctx)
                     = firstn 64 (pending ctx ++ data)).
    { rewrite skipn_all2, app_nil_r by lia.
      change (firstn n (in_ ctx)) with (pending ctx).
      rewrite firstn_app, Hp.
      rewrite (firstn_all2 (pending ctx)) by lia. reflexivity. }
    rewrite Hfirst.
    assert (Hrest : skipn (64 - n) data = skipn 64 (pending ctx ++ data)).
    { rewrite skipn_app, Hp, (skipn_all2 (pending ctx)) by lia. reflexivity. }
    rewrite Hrest.
    assert (Hb : length (firstn 64 (pending ctx ++ data)) = 64%nat)
      by (rewrite length_firstn; lia).
    destruct (swap_block _ Hb) as (Hswap & Hload & Hlen).
    rewrite Hswap, bind_ret, Hload.
    destruct (md5Update_loop_spec
                (length (skipn 64 (pending ctx ++ data)))
                (md5Transform (buf ctx)
                   (le_words (firstn 64 (pending ctx ++ data))))
                (store_words e (le_words (firstn 64 (pending ctx ++ data))))
                (skipn 64 (pending ctx ++ data)) Hlen)
      as (inb' & Hrun & Hlen').
    { apply Nat.Div0.div_le_upper_bound. lia. }
    unfold call_md5Transform, bind at 1. unfold bind at 1. rewrite Hrun.
    replace 0 with (Z.of_nat 0) by reflexivity.
    rewrite memcpy_ok, bind_ret
      by (rewrite ?length_leftover, ?Hlen'; lia).
    rewrite (full_blocks_step _ Hlong), (leftover_step _ Hlong).
    eexists. split; [unfold ret; rewrite app_nil_r; reflexivity|].
    cbn [buf bytes in_]. repeat split.
    + rewrite firstn_O, firstn_all, !length_app, length_skipn. cbn [length].
      pose proof (length_leftover (skipn 64 (pending ctx ++ data))). lia.
    + unfold pending at 1. cbn [in_].
      rewrite Hfill by reflexivity.
      rewrite firstn_O, firstn_all. cbn [app].
      rewrite <- (leftover_step _ Hlong).
      rewrite firstn_app, <- length_leftover, firstn_all.
      replace (length (leftover (pending ctx ++ data))
               - length (leftover (pending ctx ++ data)))%nat with 0%nat by lia.
      rewrite firstn_O. apply app_nil_r.
Qed.

End UpdateFacts.

(** ** [md5Final] *)

Section FinalFacts.

Import Spec.
Variable e : endianness.

Lemma length_md5Transform (st inw : list Z) :
  length (md5Transform st inw) = 4%nat.
Proof. reflexivity. Qed.

(** From here on the compression step is a black box. *)
#[local] Opaque md5Transform.

(** Zero-filling, in closed form. *)
Lemma zero_fill_closed (fuel : nat) :
  forall s : list byte,
    ((56 + 64 - length s mod 64) mod 64 <= fuel)%nat ->
    zero_fill fuel s =
    s ++ repeat x00 ((56 + 64 - length s mod 64) mod 64).
Proof.
  induction fuel as [|fuel IH]; intros s Hf.
  - replace ((56 + 64 - length s mod 64) mod 64)%nat with 0%nat by lia.
    cbn [zero_fill repeat]. rewrite app_nil_r.
    destruct (length s mod 64 =? 56)%nat; reflexivity.
  - cbn [zero_fill].
    destruct (Nat.eqb_spec (length s mod 64) 56) as [Heq|Hne].
    + rewrite Heq. cbn [repeat Nat.modulo]. 
      replace ((56 + 64 - 56) mod 64)%nat with 0%nat by reflexivity.
      cbn [repeat]. symmetry. apply app_nil_r.
    + rewrite IH by (rewrite length_app; cbn [length]; lia).
      rewrite length_app. cbn [length]. rewrite <- app_assoc. f_equal.
      replace ((56 + 64 - length s mod 64) mod 64)%nat
        with (S ((56 + 64 - (length s + 1) mod 64) mod 64)) by lia.
      reflexivity.
Qed.

(** The two words of the trailer, as the code computes them. *)
Lemma trailer_words_code (b : Z) :
  [Z.land (u64 (Z.shiftl b 3)) 0xFFFFFFFF; Z.land (Z.shiftr b 29) 0xFFFFFFFF]
  = trailer_words b.
Proof.
  unfold trailer_words, bit_count, u64.
  change 0xFFFFFFFF with (Z.ones 32). rewrite !Z.land_ones by lia.
  rewrite Z.shiftl_mul_pow2, Z.shiftr_div_pow2 by lia.
  change (2 ^ 3) with 8. change (2 ^ 29) with 536870912.
  change (2 ^ 32) with 4294967296. change (2 ^ 64) with 18446744073709551616.
  apply f_equal2; [ lia | apply f_equal2; [ lia | reflexivity ] ].
Qed.

Lemma trailer_words_range (b : Z) : map u32 (trailer_words b) = trailer_words b.
Proof.
  unfold trailer_words, bit_count, u32. cbn [map].
  change (2 ^ 32) with 4294967296. change (2 ^ 64) with 18446744073709551616.
  apply f_equal2; [ lia | apply f_equal2; [ lia | reflexivity ] ].
Qed.

(** [byteSwap(ctx->buf, 4)] leaves the state words in memory in
    little-endian order. *)
Lemma swap_state (ws : list Z) :
  store_words e (le_words (store_words e ws)) = le_bytes ws.
Proof.
  unfold store_words, le_bytes.
  induction ws as [|w ws IH]; [reflexivity|].
  cbn [flat_map]. rewrite <- IH. rewrite <- (store32_swap_store32 e w).
  destruct e; reflexivity.
Qed.

Lemma full_blocks_cons (b rest : list byte) :
  length b = 64%nat -> full_blocks (b ++ rest) = b :: full_blocks rest.
Proof.
  intros Hb. rewrite full_blocks_step by (rewrite length_app; lia).
  rewrite firstn_app, skipn_app, Hb, Nat.sub_diag, firstn_O, skipn_O.
  rewrite firstn_all2, skipn_all2, app_nil_r by lia. reflexivity.
Qed.

(** The end of [md5Final], from the zero fill up to offset 56 onwards:
    [p] bytes of the buffer are in place and [count] zero bytes complete
    them to 56. *)
Lemma md5Final_tail (st : list Z) (inb : list byte) (p count : nat) (b : Z) :
  length inb = 64%nat -> (p + count = 56)%nat ->
  (inb <- memset inb (Z.of_nat p) x00 (Z.of_nat count) ;;
   inb <- byteSwap e inb 14 ;;
   inb <- store_word e inb 14 (Z.land (u64 (Z.shiftl b 3)) 0xFFFFFFFF) ;;
   inb <- store_word e inb 15 (Z.land (Z.shiftr b 29) 0xFFFFFFFF) ;;
   st <- call_md5Transform st (load_words e inb) ;;
   stmem <- byteSwap e (store_words e st) 4 ;;
   digest <- memcpy (repeat x00 16) 0 stmem 16 ;;
   ret (digest, cleared))
  = Ok (le_bytes
          (md5Transform st
             (le_words (firstn p inb ++ repeat x00 count ++ trailer b))),
        cleared)
       [le_words (firstn p inb ++ repeat x00 count ++ trailer b)].
Proof.
  intros Hi Hpc.
  pose proof (trailer_words_code b) as Htw.
  set (lo := Z.land (u64 (Z.shiftl b 3)) 0xFFFFFFFF) in *.
  set (hi := Z.land (Z.shiftr b 29) 0xFFFFFFFF) in *.
  set (A := firstn p inb ++ repeat x00 count).
  assert (HA : length A = 56%nat).
  { unfold A. rewrite length_app, length_firstn, repeat_length. lia. }
  set (J := skipn 56 inb).
  assert (HJ : length J = 8%nat) by (unfold J; rewrite length_skipn; lia).
  rewrite memset_ok, bind_ret by lia.
  rewrite Hpc. change (skipn 56 inb) with J.
  rewrite app_assoc. change (firstn p inb ++ repeat x00 count) with A.
  (* byteSwap(ctx->in, 14) *)
  rewrite byteSwap_ok, bind_ret by (rewrite length_app; simpl; lia).
  change (4 * 14)%nat with 56%nat.
  rewrite firstn_app, skipn_app, HA, Nat.sub_diag, firstn_O, skipn_O.
  rewrite (firstn_all2 A), (skipn_all2 A), app_nil_r by lia. cbn [app].
  set (SW := store_words e (le_words A)).
  assert (HSW : length SW = 56%nat).
  { unfold SW. rewrite length_store_words, (length_le_words A 14) by
      (rewrite HA; reflexivity). reflexivity. }
  (* ctx->in[14] = ...; ctx->in[15] = ... *)
  change 14 with (Z.of_nat 14). change 15 with (Z.of_nat 15).
  rewrite store_word_ok, bind_ret by (rewrite length_app; simpl; lia).
  change (4 * 14)%nat with 56%nat. change (56 + 4)%nat with 60%nat.
  rewrite firstn_app, skipn_app, HSW.
  rewrite (firstn_all2 SW), (skipn_all2 SW) by lia.
  change (56 - 56)%nat with 0%nat. change (60 - 56)%nat with 4%nat.
  rewrite firstn_O, app_nil_r. cbn [app].
  rewrite store_word_ok, bind_ret
    by (rewrite !length_app, length_store32, length_skipn; simpl; lia).
  change (4 * 15)%nat with 60%nat. change (60 + 4)%nat with 64%nat.
  assert (Hmem :
    firstn 60 (SW ++ store32 e lo ++ skipn 4 J) ++ store32 e hi
      ++ skipn 64 (SW ++ store32 e lo ++ skipn 4 J)
    = store_words e (le_words A ++ trailer_words b) ++ []).
  { rewrite (skipn_all2 (SW ++ _))
      by (rewrite !length_app, length_store32, length_skipn; lia).
    rewrite (app_assoc SW), firstn_app.
    rewrite (firstn_all2 (SW ++ store32 e lo))
      by (rewrite length_app, length_store32; lia).
    replace (60 - length (SW ++ store32 e lo))%nat with 0%nat
      by (rewrite length_app, length_store32; lia).
    rewrite firstn_O, app_nil_r.
    rewrite <- Htw. unfold SW, store_words. rewrite flat_map_app.
    cbn [flat_map]. rewrite !app_nil_r, <- app_assoc.
    reflexivity. }
  rewrite Hmem, load_words_store_words.
  rewrite map_app, map_u32_le_words, trailer_words_range.
  cbn [load_words]. rewrite app_nil_r.
  assert (HW : le_words (A ++ trailer b) = le_words A ++ trailer_words b).
  { rewrite (le_words_app A _ 14) by (rewrite HA; reflexivity).
    unfold trailer. rewrite <- (app_nil_r (le_bytes _)).
    rewrite le_words_le_bytes, trailer_words_range. cbn [le_words].
    rewrite app_nil_r. reflexivity. }
  rewrite app_assoc. change (firstn p inb ++ repeat x00 count) with A.
  rewrite HW.
  set (W := le_words A ++ trailer_words b).
  unfold call_md5Transform, bind at 1.
  (* byteSwap(ctx->buf, 4); memcpy(digest, ctx->buf, 16) *)
  rewrite byteSwap_ok
    by (rewrite length_store_words, length_md5Transform; simpl; lia).
  change (4 * 4)%nat with 16%nat.
  rewrite firstn_all2, skipn_all2, app_nil_r
    by (rewrite length_store_words, length_md5Transform; simpl; lia).
  rewrite swap_state, bind_ret.
  change 0 with (Z.of_nat 0). change 16 with (Z.of_nat 16).
  rewrite memcpy_ok, bind_ret
    by (rewrite ?repeat_length, ?length_le_bytes, ?length_md5Transform;
        simpl; lia).
  rewrite firstn_O, firstn_all2, skipn_all2
    by (rewrite ?repeat_length, ?length_le_bytes, ?length_md5Transform;
        simpl; lia).
  rewrite app_nil_r, app_nil_l.
  generalize (md5Transform st W). intros st'. reflexivity.
Qed.

(** The padded tail of a stream, in closed form: one block when fewer than
    56 bytes are pending, two otherwise. *)
Lemma pad_closed (pend : list byte) (b : Z) :
  (length pend < 64)%nat ->
  pad pend b =
  (pend ++ [x80])
    ++ repeat x00 (if (length pend <? 56)%nat then 55 - length pend
                   else 119 - length pend)
    ++ trailer b.
Proof.
  intros Hn. unfold pad.
  rewrite zero_fill_closed by (rewrite length_app; cbn [length]; lia).
  rewrite length_app. cbn [length].
  rewrite <- (app_assoc (pend ++ [x80])).
  apply f_equal. apply (f_equal (fun z => z ++ trailer b)).
  apply f_equal.
  destruct (Nat.ltb_spec (length pend) 56); lia.
Qed.

Lemma length_trailer (b : Z) : length (trailer b) = 8%nat.
Proof. reflexivity. Qed.

Lemma full_blocks_pad (pend : list byte) (b : Z) :
  (length pend < 64)%nat ->
  full_blocks (pad pend b) =
  if (length pend <? 56)%nat then
    [pend ++ x80 :: repeat x00 (55 - length pend) ++ trailer b]
  else
    [pend ++ x80 :: repeat x00 (63 - length pend);
     repeat x00 56 ++ trailer b].
Proof.
  intros Hn. rewrite pad_closed by assumption.
  destruct (Nat.ltb_spec (length pend) 56) as [Hlt|Hge].
  - rewrite <- (app_nil_r (_ ++ _ ++ trailer b)).
    rewrite full_blocks_cons
      by (rewrite !length_app, repeat_length, length_trailer;
          cbn [length]; lia).
    rewrite <- !app_assoc. reflexivity.
  - replace (119 - length pend)%nat with ((63 - length pend) + 56)%nat by lia.
    rewrite repeat_app, <- !app_assoc.
    rewrite (app_assoc pend), (app_assoc (pend ++ [x80])).
    rewrite full_blocks_cons
      by (rewrite !length_app, repeat_length; cbn [length]; lia).
    rewrite <- (app_nil_r (repeat x00 56 ++ trailer b)).
    rewrite full_blocks_cons
      by (rewrite !length_app, repeat_length, length_trailer; lia).
    rewrite <- !app_assoc. reflexivity.
Qed.

(** What [md5Final] does: it compresses the blocks of the pending bytes
    followed by the padding, hands out the state words as sixteen bytes,
    least significant byte first, and clears the accumulator. *)
Lemma md5Final_spec (ctx : md5Context) :
  length (in_ ctx) = 64%nat ->
  md5Final e ctx =
  Ok (le_bytes (compress_all (buf ctx)
                  (full_blocks (pad (pending ctx) (bytes ctx)))),
      cleared)
     (map le_words (full_blocks (pad (pending ctx) (bytes ctx)))).
Proof.
  intros Hi.
  destruct (buffered_spec ctx) as [Hn Hlt].
  pose proof (length_pending ctx Hi) as Hp.
  rewrite full_blocks_pad by lia. rewrite Hp.
  unfold md5Final. rewrite Hn.
  set (n := buffered ctx) in *.
  rewrite poke_ok, bind_ret by lia.
  change (firstn n (in_ ctx)) with (pending ctx).
  set (in1 := pending ctx ++ x80 :: skipn (n + 1) (in_ ctx)).
  assert (Hin1 : length in1 = 64%nat).
  { unfold in1. rewrite length_app, Hp. cbn [length].
    rewrite length_skipn. lia. }
  assert (Hf1 : firstn (n + 1) in1 = pending ctx ++ [x80]).
  { unfold in1. rewrite firstn_app, Hp, firstn_all2 by lia.
    replace (n + 1 - n)%nat with 1%nat by lia. reflexivity. }
  destruct (Nat.ltb_spec n 56) as [Hlt56|Hge56].
  - replace (56 - 1 - Z.of_nat n <? 0) with false
      by (symmetry; apply Z.ltb_ge; lia).
    rewrite bind_ret.
    replace (Z.of_nat n + 1) with (Z.of_nat (n + 1)) by lia.
    replace (56 - 1 - Z.of_nat n) with (Z.of_nat (55 - n)) by lia.
    rewrite md5Final_tail by (assumption || lia).
    rewrite Hf1, <- !app_assoc. reflexivity.
  - replace (56 - 1 - Z.of_nat n <? 0) with true
      by (symmetry; apply Z.ltb_lt; lia).
    replace (Z.of_nat n + 1) with (Z.of_nat (n + 1)) by lia.
    replace (56 - 1 - Z.of_nat n + 8) with (Z.of_nat (63 - n)) by lia.
    rewrite memset_ok, bind_ret by lia.
    rewrite Hf1, (skipn_all2 in1), app_nil_r by lia.
    rewrite <- app_assoc. cbn [app].
    set (B1 := pending ctx ++ x80 :: repeat x00 (63 - n)).
    assert (HB1 : length B1 = 64%nat).
    { unfold B1. rewrite length_app, Hp. cbn [length].
      rewrite repeat_length. lia. }
    destruct (swap_block e B1 HB1) as (Hswap & Hload & Hlen).
    rewrite Hswap, bind_ret, Hload.
    unfold call_md5Transform at 1.
    remember (md5Transform (buf ctx) (le_words B1)) as st1 eqn:Hst1.
    replace (st <- Ok st1 [le_words B1] ;;
             ret (st, store_words e (le_words B1), 0, 56))
      with (Ok (st1, store_words e (le_words B1), Z.of_nat 0, Z.of_nat 56)
              [le_words B1]) by reflexivity.
    unfold bind at 1.
    rewrite md5Final_tail by (assumption || lia).
    rewrite firstn_O, app_nil_l.
    unfold compress_all. cbn [fold_left map]. rewrite <- Hst1.
    reflexivity.
Qed.

End FinalFacts.

(** ** Whole sessions *)

Section SessionFacts.

Import Spec.
Variable e : endianness.

Lemma pad_general (s : list byte) (b : Z) :
  pad s b =
  s ++ (x80 :: repeat x00 ((56 + 64 - (length s + 1) mod 64) mod 64)
          ++ trailer b).
Proof.
  unfold pad.
  rewrite zero_fill_closed by (rewrite length_app; cbn [length]; lia).
  rewrite length_app. cbn [length]. rewrite <- !app_assoc. reflexivity.
Qed.

Lemma trailer_u64 (n : Z) : trailer (u64 n) = trailer n.
Proof.
  unfold trailer, trailer_words, bit_count, u64.
  replace ((n mod 2 ^ 64 * 8) mod 2 ^ 64) with ((n * 8) mod 2 ^ 64);
    [reflexivity|].
  change (2 ^ 64) with 18446744073709551616. lia.
Qed.

(** Padding what a stream left over, with the wrapped counter, gives the
    blocks that padding the whole stream adds to the blocks of the
    stream. *)
Lemma full_blocks_pad_stream (s : list byte) :
  full_blocks (pad s (Z.of_nat (length s))) =
  full_blocks s
    ++ full_blocks (pad (leftover s) (u64 (Z.of_nat (length s)))).
Proof.
  rewrite !pad_general, trailer_u64, length_leftover.
  replace ((length s mod 64 + 1) mod 64)%nat
    with ((length s + 1) mod 64)%nat by lia.
  apply full_blocks_app.
Qed.

(** [md5Init] leaves an empty accumulator. *)
Lemma md5Init_spec (c0 : md5Context) :
  length (in_ c0) = 64%nat ->
  length (in_ (md5Init c0)) = 64%nat /\
  pending (md5Init c0) = [] /\
  buf (md5Init c0) = initial_state /\
  bytes (md5Init c0) = 0.
Proof. intros H. repeat split. assumption. Qed.

Lemma u64_range (x : Z) : 0 <= u64 x < 2 ^ 64.
Proof. unfold u64. apply Z.mod_pos_bound. reflexivity. Qed.

(** A run of [md5Update] calls absorbs the concatenation of the pieces. *)
Lemma md5Updates_spec (pieces : list (list byte)) :
  forall ctx : md5Context,
    length (in_ ctx) = 64%nat -> 0 <= bytes ctx < 2 ^ 64 ->
    exists ctx',
      md5Updates e ctx pieces =
      Ok ctx' (map le_words (full_blocks (pending ctx ++ concat pieces))) /\
      buf ctx' =
        compress_all (buf ctx) (full_blocks (pending ctx ++ concat pieces)) /\
      bytes ctx' = u64 (bytes ctx + Z.of_nat (length (concat pieces))) /\
      length (in_ ctx') = 64%nat /\
      pending ctx' = leftover (pending ctx ++ concat pieces).
Proof.
  induction pieces as [|piece pieces IH]; intros ctx Hi Hb.
  - exists ctx. cbn [md5Updates concat length]. rewrite app_nil_r.
    pose proof (length_pending ctx Hi) as Hp.
    pose proof (buffered_spec ctx) as [Hn Hlt].
    assert (Hs : (length (pending ctx) < 64)%nat) by lia.
    destruct (full_blocks_short _ Hs) as [-> ->].
    repeat split; try assumption.
    unfold u64. rewrite Z.add_0_r, Z.mod_small; [reflexivity | assumption].
  - destruct (md5Update_spec e ctx piece Hi)
      as (ctx1 & Hrun1 & Hbuf1 & Hbytes1 & Hi1 & Hpend1).
    assert (Hb1 : 0 <= bytes ctx1 < 2 ^ 64)
      by (rewrite Hbytes1; apply u64_range).
    destruct (IH ctx1 Hi1 Hb1) as (ctx2 & Hrun2 & Hbuf2 & Hbytes2 & Hi2 & Hpend2).
    destruct (full_blocks_app (pending ctx ++ piece) (concat pieces))
      as [Hfb Hlo].
    exists ctx2. cbn [md5Updates concat].
    rewrite app_assoc, Hfb, Hlo, <- Hpend1.
    repeat split.
    + rewrite Hrun1. unfold bind. rewrite Hrun2, map_app. reflexivity.
    + rewrite compress_all_app, <- Hbuf1. exact Hbuf2.
    + rewrite Hbytes2, Hbytes1, length_app. unfold u64.
      change (2 ^ 64) with 18446744073709551616. lia.
    + assumption.
    + assumption.
Qed.

(** [md5Final] on an accumulator that holds the stream [s], absorbed from
    the state [st0]. *)
Lemma md5Final_stream (st0 : list Z) (ctx : md5Context) (s : list byte) :
  length (in_ ctx) = 64%nat ->
  buf ctx = compress_all st0 (full_blocks s) ->
  bytes ctx = u64 (Z.of_nat (length s)) ->
  pending ctx = leftover s ->
  md5Final e ctx =
  Ok (digest_from st0 s, cleared)
     (map le_words
        (full_blocks (pad (leftover s) (u64 (Z.of_nat (length s)))))).
Proof.
  intros Hi Hbuf Hbytes Hpend.
  rewrite (md5Final_spec e ctx Hi), Hbuf, Hbytes, Hpend.
  unfold digest_from.
  rewrite full_blocks_pad_stream, compress_all_app. reflexivity.
Qed.

(** The end of a session whose accumulator holds the stream [s]. *)
Lemma finish_spec (st0 : list Z) (ctx : md5Context) (s : list byte)
    (calls : list (list Z)) :
  length (in_ ctx) = 64%nat ->
  calls = map le_words (full_blocks s) ->
  buf ctx = compress_all st0 (full_blocks s) ->
  bytes ctx = u64 (Z.of_nat (length s)) ->
  pending ctx = leftover s ->
  (ctx <- Ok ctx calls ;; '(digest, _) <- md5Final e ctx ;; ret digest)
  = Ok (digest_from st0 s)
       (map le_words (full_blocks (pad s (Z.of_nat (length s))))).
Proof.
  intros Hi Hcalls Hbuf Hbytes Hpend.
  unfold bind at 1.
  rewrite (md5Final_stream st0 ctx s Hi Hbuf Hbytes Hpend), Hcalls.
  rewrite full_blocks_pad_stream, map_app.
  generalize (digest_from st0 s).
  intros d. unfold bind, ret. rewrite app_nil_r. reflexivity.
Qed.

(** The one-shot digest is the digest of the specification. *)
Lemma md5_spec (c0 : md5Context) (data : list byte) :
  length (in_ c0) = 64%nat ->
  md5 e c0 data =
  Ok (digest data)
     (map le_words (full_blocks (pad data (Z.of_nat (length data))))).
Proof.
  intros H0. unfold md5.
  destruct (md5Init_spec c0 H0) as (Hi & Hp & Hb & Hn).
  destruct (md5Update_spec e (md5Init c0) data Hi)
    as (ctx & Hrun & Hbuf & Hbytes & Hi' & Hpend).
  rewrite Hrun. rewrite Hp in *. cbn [app] in *.
  apply (finish_spec initial_state); assumption || reflexivity.
Qed.

(** So is the digest of a session, however the stream is cut. *)
Lemma md5_session_spec (c0 : md5Context) (pieces : list (list byte)) :
  length (in_ c0) = 64%nat ->
  md5_session e c0 pieces =
  Ok (digest (concat pieces))
     (map le_words
        (full_blocks (pad (concat pieces)
                        (Z.of_nat (length (concat pieces)))))).
Proof.
  intros H0. unfold md5_session.
  destruct (md5Init_spec c0 H0) as (Hi & Hp & Hb & Hn).
  destruct (md5Updates_spec pieces (md5Init c0) Hi)
    as (ctx & Hrun & Hbuf & Hbytes & Hi' & Hpend).
  { rewrite Hn. split; [lia | reflexivity]. }
  rewrite Hrun. rewrite Hp in *. cbn [app] in *.
  apply (finish_spec initial_state); assumption || reflexivity.
Qed.

End SessionFacts.

(** * The properties of the specification *)

Section SpecProperties.

Import Spec.

Lemma fold_left_step {A B : Type} (f : A -> B -> A) (x : B) (l : list B)
    (a : A) :
  fold_left f (x :: l) a = fold_left f l (f a x).
Proof. reflexivity. Qed.

Lemma length_compress_all (blocks : list (list byte)) :
  forall st, length st = 4%nat -> length (compress_all st blocks) = 4%nat.
Proof.
  unfold compress_all.
  induction blocks as [|b blocks IH]; intros st Hst; [exact Hst|].
  rewrite fold_left_step. apply IH, length_md5Transform.
Qed.

Lemma length_digest_from (st0 : list Z) (s : list byte) :
  length st0 = 4%nat -> length (digest_from st0 s) = 16%nat.
Proof.
  intros Hst. unfold digest_from.
  rewrite length_le_bytes, length_compress_all by exact Hst. reflexivity.
Qed.

(** C1.  Known answers: the one-shot digest of the empty input, of ["abc"]
    and of ["The quick brown fox jumps over the lazy dog"] are, in
    hexadecimal, d41d8cd98f00b204e9800998ecf8427e,
    900150983cd24fb0d6963f7d28e17f72 and 9e107d9d372bb6826bd81d3542a419d6,
    on a host of either byte order and whatever the uninitialised local
    accumulator of [md5] holds. *)
Theorem md5_known_answers (e : endianness) (context : md5Context) :
  length (in_ context) = 64%nat ->
  option_map hex (digest_of (md5 e context []))
    = Some "d41d8cd98f00b204e9800998ecf8427e"%string /\
  option_map hex (digest_of (md5 e context (bytes_of_string "abc"%string)))
    = Some "900150983cd24fb0d6963f7d28e17f72"%string /\
  option_map hex
    (digest_of
       (md5 e context
          (bytes_of_string
             "The quick brown fox jumps over the lazy dog"%string)))
    = Some "9e107d9d372bb6826bd81d3542a419d6"%string.
Proof.
  intros Hi. rewrite !(md5_spec e context _ Hi). cbn [digest_of option_map].
  repeat split; apply f_equal; vm_compute; reflexivity.
Qed.

Lemma md5_known_answers_witness :
  length (in_ cleared) = 64%nat /\
  option_map hex (digest_of (md5 BigEndian cleared []))
    = Some "d41d8cd98f00b204e9800998ecf8427e"%string /\
  option_map hex (digest_of (md5 BigEndian cleared (bytes_of_string "abc"%string)))
    = Some "900150983cd24fb0d6963f7d28e17f72"%string /\
  option_map hex
    (digest_of
       (md5 BigEndian cleared
          (bytes_of_string
             "The quick brown fox jumps over the lazy dog"%string)))
    = Some "9e107d9d372bb6826bd81d3542a419d6"%string.
Proof.
  split; [reflexivity | apply (md5_known_answers BigEndian cleared); reflexivity].
Defined.

(** C2.  Chunk invariance: however a stream is cut into pieces, a session
    of [md5Init], one [md5Update] per piece and [md5Final] returns exactly
    what the one-shot [md5] returns on the whole stream, a digest of 16
    bytes; in particular two updates with [A] and [B] give what one update
    with [A ++ B] gives.  Empty and one-byte pieces are pieces like any
    other. *)
Theorem chunk_invariance (e : endianness) (c1 c2 : md5Context)
    (pieces : list (list byte)) :
  length (in_ c1) = 64%nat -> length (in_ c2) = 64%nat ->
  md5_session e c1 pieces = md5 e c2 (concat pieces) /\
  (exists digest calls,
     md5 e c2 (concat pieces) = Ok digest calls /\
     length digest = 16%nat) /\
  (forall A B : list byte,
     md5_session e c1 [A; B] = md5_session e c2 [A ++ B]).
Proof.
  intros H1 H2. repeat split.
  - rewrite (md5_session_spec e c1 pieces H1), (md5_spec e c2 _ H2).
    reflexivity.
  - rewrite (md5_spec e c2 _ H2). do 2 eexists. split; [reflexivity|].
    apply length_digest_from. reflexivity.
  - intros A B.
    rewrite (md5_session_spec e c1 _ H1), (md5_session_spec e c2 _ H2).
    cbn [concat]. rewrite !app_nil_r. reflexivity.
Qed.

Lemma chunk_invariance_witness :
  length (in_ cleared) = 64%nat /\
  length (in_ (md5Init cleared)) = 64%nat /\
  md5_session LittleEndian cleared [[x61]; []; [x62; x63]]
  = md5 LittleEndian (md5Init cleared) (concat [[x61]; []; [x62; x63]]) /\
  (exists digest calls,
     md5 LittleEndian (md5Init cleared) (concat [[x61]; []; [x62; x63]])
     = Ok digest calls /\
     length digest = 16%nat) /\
  (forall A B : list byte,
     md5_session LittleEndian cleared [A; B]
     = md5_session LittleEndian (md5Init cleared) [A ++ B]).
Proof.
  split; [reflexivity | split; [reflexivity | ] ].
  apply (chunk_invariance LittleEndian cleared (md5Init cleared)
           [[x61]; []; [x62; x63]]); reflexivity.
Defined.

(** C3.  The compression step is the MD5 schedule: sixty-four rounds in
    four groups of sixteen with the functions
    [F1 = d ^ (b & (c ^ d))], [F2 = c ^ (d & (b ^ c))], [F3 = b ^ c ^ d],
    [F4 = c ^ (b | ~d)]; each round is
    [a' = b + rotate_left(a + F(b,c,d) + word[index] + constant, rotation)]
    with the rotations {7,12,17,22}, {5,9,14,20}, {4,11,16,23},
    {6,10,15,21}, followed by the renaming [(a,b,c,d) -> (d,a,b,c)]; and
    the registers are finally added modulo [2^32] to the state the step
    started from. *)
Theorem compression_step_schedule (state block : list Z) :
  md5Transform state block = Schedule.compress state block /\
  length Schedule.rounds = 64%nat /\
  map fst Schedule.rounds =
    repeat 0%nat 16 ++ repeat 1%nat 16 ++ repeat 2%nat 16 ++ repeat 3%nat 16 /\
  (forall g i : nat, (g < 4)%nat -> (i < 16)%nat ->
     In (g, i) Schedule.rounds /\
     In (Schedule.rotation g i) (Schedule.rotations g) /\
     (Schedule.index g i < 16)%nat).
Proof.
  split; [apply md5Transform_schedule|].
  split; [reflexivity|]. split; [reflexivity|].
  intros g i Hg Hi. repeat split.
  - unfold Schedule.rounds. apply in_flat_map. exists g. split.
    + apply in_seq. lia.
    + apply in_map, in_seq. lia.
  - unfold Schedule.rotation. apply nth_In.
    destruct g as [|[|[|g]]]; cbn [Schedule.rotations length]; lia.
  - unfold Schedule.index. destruct g as [|[|[|g]]]; lia.
Qed.

(** C7.  [md5Final] returns a digest of 16 bytes and leaves every field of
    the accumulator zero: the four state words, the 64 bytes of the block
    buffer and the byte counter. *)
Theorem md5Final_clears (e : endianness) (ctx : md5Context) :
  length (in_ ctx) = 64%nat -> length (buf ctx) = 4%nat ->
  exists digest ctx' calls,
    md5Final e ctx = Ok (digest, ctx') calls /\
    length digest = 16%nat /\
    buf ctx' = [0; 0; 0; 0] /\
    bytes ctx' = 0 /\
    length (in_ ctx') = 64%nat /\
    Forall (fun b => b = x00) (in_ ctx').
Proof.
  intros Hi Hb. rewrite (md5Final_spec e ctx Hi).
  do 3 eexists. split; [reflexivity|]. repeat split.
  - rewrite length_le_bytes, length_compress_all by exact Hb. reflexivity.
  - unfold cleared. cbn [in_]. apply Forall_forall.
    intros b Hin. apply repeat_spec in Hin. exact Hin.
Qed.

Lemma md5Final_clears_witness :
  length (in_ (md5Init cleared)) = 64%nat /\
  length (buf (md5Init cleared)) = 4%nat /\
  exists digest ctx' calls,
    md5Final LittleEndian (md5Init cleared) = Ok (digest, ctx') calls /\
    length digest = 16%nat /\
    buf ctx' = [0; 0; 0; 0] /\
    bytes ctx' = 0 /\
    length (in_ ctx') = 64%nat /\
    Forall (fun b => b = x00) (in_ ctx').
Proof.
  split; [reflexivity | split; [reflexivity | ] ].
  apply (md5Final_clears LittleEndian (md5Init cleared)); reflexivity.
Defined.

(** C9.  No access of [md5Final] leaves the block buffer.  The marker goes
    to offset [bytes & 0x3f], which is below 64, so the write is in bounds;
    and the whole of [md5Final], in which every access to the buffer is
    checked (the marker, both zero fills, both byte swaps and the two
    trailer words), ends without the out-of-bounds fault, for every
    accumulator whose buffer has its 64 bytes; each block handed to the
    compression step has its sixteen words. *)
Theorem md5Final_in_bounds (e : endianness) (ctx : md5Context) :
  length (in_ ctx) = 64%nat ->
  0 <= Z.land (bytes ctx) 0x3f < 64 /\
  in_bounds (in_ ctx) (Z.land (bytes ctx) 0x3f) 1 = true /\
  (exists inb,
     poke (in_ ctx) (Z.land (bytes ctx) 0x3f) x80 = Ok inb [] /\
     length inb = 64%nat) /\
  md5Final e ctx <> Fault OutOfBounds /\
  exists r calls,
    md5Final e ctx = Ok r calls /\
    Forall (fun blk => length blk = 16%nat) calls.
Proof.
  intros Hi. destruct (buffered_spec ctx) as [Hn Hlt].
  rewrite Hn. repeat split; try lia.
  - unfold in_bounds. rewrite !andb_true_iff, !Z.leb_le. lia.
  - rewrite poke_ok by lia. eexists. split; [reflexivity|].
    rewrite length_app, length_firstn. cbn [length].
    rewrite length_skipn. lia.
  - rewrite (md5Final_spec e ctx Hi). discriminate.
  - rewrite (md5Final_spec e ctx Hi). do 2 eexists.
    split; [reflexivity|].
    apply Forall_map.
    eapply Forall_impl; [ | apply full_blocks_length_64 ].
    intros b Hb. apply length_le_words. rewrite Hb. reflexivity.
Qed.

Lemma md5Final_in_bounds_witness :
  length (in_ cleared) = 64%nat /\
  0 <= Z.land (bytes cleared) 0x3f < 64 /\
  in_bounds (in_ cleared) (Z.land (bytes cleared) 0x3f) 1 = true /\
  (exists inb,
     poke (in_ cleared) (Z.land (bytes cleared) 0x3f) x80 = Ok inb [] /\
     length inb = 64%nat) /\
  md5Final BigEndian cleared <> Fault OutOfBounds /\
  exists r calls,
    md5Final BigEndian cleared = Ok r calls /\
    Forall (fun blk => length blk = 16%nat) calls.
Proof.
  split; [reflexivity | apply (md5Final_in_bounds BigEndian cleared); reflexivity].
Defined.

(** The checks of the model are real: on a buffer that is too short the
    first write of [md5Final] faults. *)
Example md5Final_checks_bounds :
  md5Final LittleEndian {| buf := [0; 0; 0; 0]; bytes := 0; in_ := [] |}
  = Fault OutOfBounds.
Proof. reflexivity. Qed.

(** C10.  An update with no bytes changes nothing: the state words, the
    buffer and the counter are as before, and the compression step is not
    called. *)
Theorem md5Update_empty (e : endianness) (ctx : md5Context) :
  well_typed ctx -> md5Update e ctx [] = Ok ctx [].
Proof.
  intros (Hb & Hr & Hi). destruct (buffered_spec ctx) as [Hn Hlt].
  unfold md5Update. rewrite Hn. cbn [length].
  replace (64 - Z.of_nat (buffered ctx) >? Z.of_nat 0) with true
    by (symmetry; apply Z.gtb_lt; lia).
  replace (64 - (64 - Z.of_nat (buffered ctx)))
    with (Z.of_nat (buffered ctx)) by lia.
  rewrite memcpy_ok, bind_ret by (cbn [length]; lia).
  rewrite firstn_O, app_nil_l, Nat.add_0_r, firstn_skipn.
  unfold u64. rewrite Z.add_0_r, Z.mod_small by exact Hr.
  destruct ctx; reflexivity.
Qed.

Lemma md5Update_empty_witness :
  well_typed (md5Init cleared) /\
  md5Update LittleEndian (md5Init cleared) [] = Ok (md5Init cleared) [].
Proof.
  assert (H : well_typed (md5Init cleared)).
  { repeat split; try reflexivity; cbn [bytes md5Init]; lia. }
  split; [exact H | apply (md5Update_empty LittleEndian (md5Init cleared) H)].
Defined.

(** C4.  The padding of [md5Final].  With [n = bytes mod 64] bytes pending
    it compresses the blocks [padding_blocks]: the marker [0x80] after the
    pending bytes, then zero bytes up to offset 56 and the 8-byte trailer
    at offsets 56..63, in one block when [n < 56]; when [n >= 56] the
    current block is zero-filled to its end and compressed, and a fresh
    block of 56 zero bytes and the trailer is compressed last.  These
    blocks are the pending bytes, the marker, zero bytes until the length
    modulo 64 is 56, and the trailer. *)
Theorem md5Final_padding (e : endianness) (ctx : md5Context) :
  length (in_ ctx) = 64%nat ->
  Z.of_nat (buffered ctx) = bytes ctx mod 64 /\
  length (pending ctx) = buffered ctx /\
  md5Final e ctx =
    Ok (le_bytes (compress_all (buf ctx) (padding_blocks ctx)), cleared)
       (map le_words (padding_blocks ctx)) /\
  concat (padding_blocks ctx) =
    zero_fill 64 (pending ctx ++ [x80]) ++ trailer (bytes ctx) /\
  (length (zero_fill 64 (pending ctx ++ [x80])) mod 64 = 56)%nat /\
  Forall (fun b => length b = 64%nat) (padding_blocks ctx) /\
  length (padding_blocks ctx) = (if (buffered ctx <? 56)%nat then 1 else 2)%nat.
Proof.
  intros Hi.
  destruct (buffered_spec ctx) as [Hn Hlt].
  pose proof (length_pending ctx Hi) as Hp.
  assert (Hlt' : (length (pending ctx) < 64)%nat) by lia.
  assert (Hblocks : full_blocks (pad (pending ctx) (bytes ctx))
                    = padding_blocks ctx).
  { rewrite (full_blocks_pad _ _ Hlt'), Hp. reflexivity. }
  split; [rewrite <- Hn; apply land_63|].
  split; [exact Hp|].
  split; [rewrite (md5Final_spec e ctx Hi), Hblocks; reflexivity|].
  split.
  { fold (pad (pending ctx) (bytes ctx)).
    rewrite (pad_closed _ _ Hlt'), Hp. unfold padding_blocks.
    destruct (Nat.ltb_spec (buffered ctx) 56) as [H56|H56]; cbn [concat].
    - rewrite app_nil_r, <- !app_assoc. reflexivity.
    - rewrite app_nil_r.
      replace (119 - buffered ctx)%nat
        with ((63 - buffered ctx) + 56)%nat by lia.
      rewrite repeat_app, <- !app_assoc. reflexivity. }
  split.
  { rewrite zero_fill_closed by (rewrite length_app; cbn [length]; lia).
    rewrite !length_app, repeat_length. cbn [length]. lia. }
  split.
  { rewrite <- Hblocks. apply full_blocks_length_64. }
  unfold padding_blocks.
  destruct (buffered ctx <? 56)%nat; reflexivity.
Qed.

Lemma md5Final_padding_witness :
  length (in_ pending_60) = 64%nat /\
  Z.of_nat (buffered pending_60) = bytes pending_60 mod 64 /\
  length (pending pending_60) = buffered pending_60 /\
  md5Final LittleEndian pending_60 =
    Ok (le_bytes (compress_all (buf pending_60) (padding_blocks pending_60)),
        cleared)
       (map le_words (padding_blocks pending_60)) /\
  concat (padding_blocks pending_60) =
    zero_fill 64 (pending pending_60 ++ [x80]) ++ trailer (bytes pending_60) /\
  (length (zero_fill 64 (pending pending_60 ++ [x80])) mod 64 = 56)%nat /\
  Forall (fun b => length b = 64%nat) (padding_blocks pending_60) /\
  length (padding_blocks pending_60)
  = (if (buffered pending_60 <? 56)%nat then 1 else 2)%nat.
Proof.
  split; [reflexivity | apply (md5Final_padding LittleEndian pending_60);
                        reflexivity].
Defined.

Lemma le_bytes_app (a b : list Z) : le_bytes (a ++ b) = le_bytes a ++ le_bytes b.
Proof. unfold le_bytes. apply flat_map_app. Qed.

(** The last block [md5Final] compresses ends with the trailer. *)
Lemma last_block_trailer (pend : list byte) (b : Z) :
  (length pend < 64)%nat ->
  exists blocks X,
    full_blocks (pad pend b) = blocks ++ [X ++ trailer b] /\
    length X = 56%nat.
Proof.
  intros Hn. rewrite (full_blocks_pad pend b Hn).
  destruct (Nat.ltb_spec (length pend) 56) as [H56|H56].
  - exists [], (pend ++ x80 :: repeat x00 (55 - length pend)). split.
    + rewrite <- app_assoc. reflexivity.
    + rewrite length_app. cbn [length]. rewrite repeat_length. lia.
  - exists [pend ++ x80 :: repeat x00 (63 - length pend)], (repeat x00 56).
    split; [reflexivity | apply repeat_length].
Qed.

Lemma trailer_block_words (X : list byte) (b : Z) :
  length X = 56%nat ->
  length (le_words (X ++ trailer b)) = 16%nat /\
  skipn 14 (le_words (X ++ trailer b)) = trailer_words b /\
  skipn 56 (le_bytes (le_words (X ++ trailer b))) = trailer b.
Proof.
  intros HX.
  assert (HW : le_words (X ++ trailer b) = le_words X ++ trailer_words b).
  { rewrite (le_words_app X _ 14) by (rewrite HX; reflexivity).
    unfold trailer. rewrite <- (app_nil_r (le_bytes _)).
    rewrite le_words_le_bytes, trailer_words_range. cbn [le_words].
    rewrite app_nil_r. reflexivity. }
  pose proof (length_le_words X 14) as HL.
  rewrite HW. repeat split.
  - rewrite length_app, HL by (rewrite HX; reflexivity). reflexivity.
  - rewrite skipn_app, HL, skipn_all2 by (rewrite ?HL, ?HX; reflexivity || lia).
    reflexivity.
  - rewrite le_bytes_app, skipn_app, length_le_bytes, HL, skipn_all2
      by (rewrite ?length_le_bytes, ?HL, ?HX; reflexivity || lia).
    reflexivity.
Qed.

(** C5.  The trailer.  The last block [md5Final] compresses carries, in its
    words 14 and 15 (byte offsets 56 and 60), the low and the high 32-bit
    word of the bit count [bytes * 8] reduced modulo [2^64], and in its
    last eight bytes their little-endian encoding, low word first.  At the
    end of a session that absorbed a stream the bit count is the one of
    the length of the stream.  Bits above the low 64 are dropped: byte
    counts congruent modulo [2^61] give the same trailer. *)
Theorem md5Final_trailer (e : endianness) (ctx c0 : md5Context)
    (pieces : list (list byte)) :
  length (in_ ctx) = 64%nat -> length (in_ c0) = 64%nat ->
  (exists digest calls blk,
     md5Final e ctx = Ok (digest, cleared) (calls ++ [blk]) /\
     length blk = 16%nat /\
     skipn 14 blk = trailer_words (bytes ctx) /\
     skipn 56 (le_bytes blk) = trailer (bytes ctx)) /\
  (exists digest calls blk,
     md5_session e c0 pieces = Ok digest (calls ++ [blk]) /\
     length blk = 16%nat /\
     skipn 14 blk = trailer_words (Z.of_nat (length (concat pieces))) /\
     skipn 56 (le_bytes blk) = trailer (Z.of_nat (length (concat pieces)))) /\
  (forall t : Z,
     trailer_words t =
     [((t * 8) mod 2 ^ 64) mod 2 ^ 32; ((t * 8) mod 2 ^ 64) / 2 ^ 32] /\
     trailer t = le_bytes32 (((t * 8) mod 2 ^ 64) mod 2 ^ 32)
                 ++ le_bytes32 (((t * 8) mod 2 ^ 64) / 2 ^ 32)) /\
  (forall t1 t2 : Z,
     t1 mod 2 ^ 61 = t2 mod 2 ^ 61 ->
     trailer_words t1 = trailer_words t2 /\ trailer t1 = trailer t2).
Proof.
  intros Hi H0. repeat split.
  - rewrite (md5Final_spec e ctx Hi).
    destruct (last_block_trailer (pending ctx) (bytes ctx))
      as (blocks & X & Hfb & HX).
    { rewrite (length_pending ctx Hi). apply buffered_spec. }
    destruct (trailer_block_words X (bytes ctx) HX) as (Hl & Hw & Hb).
    rewrite Hfb, map_app. cbn [map].
    do 3 eexists. split; [reflexivity|]. repeat split; assumption.
  - rewrite (md5_session_spec e c0 pieces H0).
    set (s := concat pieces).
    rewrite full_blocks_pad_stream.
    destruct (last_block_trailer (leftover s) (u64 (Z.of_nat (length s))))
      as (blocks & X & Hfb & HX).
    { rewrite length_leftover. lia. }
    rewrite trailer_u64 in Hfb.
    destruct (trailer_block_words X (Z.of_nat (length s)) HX)
      as (Hl & Hw & Hb).
    rewrite Hfb, app_assoc, map_app. cbn [map].
    do 3 eexists. split; [reflexivity|]. repeat split; assumption.
  - unfold trailer_words, bit_count.
    replace ((t1 * 8) mod 2 ^ 64) with ((t2 * 8) mod 2 ^ 64);
      [reflexivity|].
    change (2 ^ 61) with 2305843009213693952 in H.
    change (2 ^ 64) with 18446744073709551616. lia.
  - unfold trailer, trailer_words, bit_count.
    replace ((t1 * 8) mod 2 ^ 64) with ((t2 * 8) mod 2 ^ 64);
      [reflexivity|].
    change (2 ^ 61) with 2305843009213693952 in H.
    change (2 ^ 64) with 18446744073709551616. lia.
Qed.

Lemma md5Final_trailer_witness :
  length (in_ pending_60) = 64%nat /\ length (in_ cleared) = 64%nat /\
  (exists digest calls blk,
     md5Final BigEndian pending_60 = Ok (digest, cleared) (calls ++ [blk]) /\
     length blk = 16%nat /\
     skipn 14 blk = trailer_words (bytes pending_60) /\
     skipn 56 (le_bytes blk) = trailer (bytes pending_60)) /\
  (exists digest calls blk,
     md5_session BigEndian cleared [[x61; x62]; [x63]]
     = Ok digest (calls ++ [blk]) /\
     length blk = 16%nat /\
     skipn 14 blk
     = trailer_words (Z.of_nat (length (concat [[x61; x62]; [x63]]))) /\
     skipn 56 (le_bytes blk)
     = trailer (Z.of_nat (length (concat [[x61; x62]; [x63]])))) /\
  (forall t : Z,
     trailer_words t =
     [((t * 8) mod 2 ^ 64) mod 2 ^ 32; ((t * 8) mod 2 ^ 64) / 2 ^ 32] /\
     trailer t = le_bytes32 (((t * 8) mod 2 ^ 64) mod 2 ^ 32)
                 ++ le_bytes32 (((t * 8) mod 2 ^ 64) / 2 ^ 32)) /\
  (forall t1 t2 : Z,
     t1 mod 2 ^ 61 = t2 mod 2 ^ 61 ->
     trailer_words t1 = trailer_words t2 /\ trailer t1 = trailer t2).
Proof.
  split; [reflexivity | split; [reflexivity | ] ].
  apply (md5Final_trailer BigEndian pending_60 cleared [[x61; x62]; [x63]]);
    reflexivity.
Defined.

(** C6, as the specification has it, fails: an accumulator used again after
    [md5Final] is not refused. *)
Lemma reuse_not_signalled :
  ~ reuse_is_signalled LittleEndian cleared (bytes_of_string "abc"%string).
Proof.
  intros H.
  specialize (H _ _ _ (md5Final_spec LittleEndian (md5Init cleared) eq_refl)).
  destruct H as [_ [f Hf]].
  rewrite (md5Final_spec LittleEndian cleared eq_refl) in Hf.
  discriminate Hf.
Qed.

(** What the second digest then is differs from the digest of the data. *)
Example reuse_digest_differs :
  digest_from [0; 0; 0; 0] (bytes_of_string "abc"%string)
  <> digest (bytes_of_string "abc"%string).
Proof. vm_compute. discriminate. Qed.

(** C6, amended.  The operations have no error channel and the accumulator
    has no mark of being initialised or finished: on any accumulator with
    its 64-byte buffer [md5Update] and [md5Final] run to their end, and on
    the all-zero accumulator that [md5Final] leaves they compute the digest
    construction started from the all-zero state. *)
Theorem misuse_runs_unsignalled (e : endianness) (ctx : md5Context)
    (data : list byte) :
  length (in_ ctx) = 64%nat -> runs_without_signal e ctx data.
Proof.
  intros Hi. unfold runs_without_signal. repeat split.
  - destruct (md5Update_spec e ctx data Hi) as (ctx' & Hrun & _).
    do 2 eexists. exact Hrun.
  - rewrite (md5Final_spec e ctx Hi). do 2 eexists. reflexivity.
  - destruct (md5Update_spec e cleared data eq_refl)
      as (ctx' & Hrun & Hbuf & Hbytes & Hi' & Hpend).
    change (pending cleared) with (@nil byte) in *.
    rewrite app_nil_l in *.
    exists ctx'. do 2 eexists. split; [exact Hrun|].
    apply (md5Final_stream e [0; 0; 0; 0] ctx' data Hi' Hbuf Hbytes Hpend).
Qed.

Lemma misuse_runs_unsignalled_witness :
  length (in_ pending_60) = 64%nat /\
  runs_without_signal LittleEndian pending_60 [x61; x62; x63].
Proof.
  split; [reflexivity | apply (misuse_runs_unsignalled LittleEndian pending_60);
                        reflexivity].
Defined.

Lemma length_half_of_2_64 : Z.of_nat (length half_of_2_64) = 2 ^ 63.
Proof.
  unfold half_of_2_64. rewrite repeat_length. apply Z2Nat.id. discriminate.
Qed.

(** C8, as the specification has it, fails: after two updates of [2^63]
    bytes each the counter is 0, not the [2^64] bytes of the stream. *)
Lemma counter_wraps :
  ~ counter_is_length LittleEndian cleared [half_of_2_64; half_of_2_64].
Proof.
  intros H.
  destruct (md5Updates_spec LittleEndian [half_of_2_64; half_of_2_64]
              (md5Init cleared) eq_refl)
    as (ctx & Hrun & _ & Hbytes & _).
  { split; [apply Z.le_refl | reflexivity]. }
  specialize (H ctx _ Hrun). rewrite Hbytes in H.
  change (bytes (md5Init cleared)) with 0 in H.
  rewrite concat_cons, concat_cons, concat_nil, !length_app in H.
  change (length (@nil byte)) with 0%nat in H.
  rewrite !Nat2Z.inj_add, length_half_of_2_64 in H.
  change (Z.of_nat 0) with 0 in H.
  vm_compute in H. discriminate H.
Qed.

Lemma same_contents_final (e : endianness) (c1 c2 : md5Context) :
  same_contents c1 c2 -> md5Final e c2 = md5Final e c1.
Proof.
  intros (Hb & Hn & Hp & H1 & H2).
  rewrite (md5Final_spec e c1 H1), (md5Final_spec e c2 H2), Hb, Hn, Hp.
  reflexivity.
Qed.

Lemma same_contents_update (e : endianness) (c1 c2 : md5Context)
    (data : list byte) :
  same_contents c1 c2 ->
  exists c1' c2' calls,
    md5Update e c1 data = Ok c1' calls /\
    md5Update e c2 data = Ok c2' calls /\
    same_contents c1' c2'.
Proof.
  intros (Hb & Hn & Hp & H1 & H2).
  destruct (md5Update_spec e c1 data H1)
    as (c1' & Hrun1 & Hbuf1 & Hbytes1 & Hi1 & Hpend1).
  destruct (md5Update_spec e c2 data H2)
    as (c2' & Hrun2 & Hbuf2 & Hbytes2 & Hi2 & Hpend2).
  rewrite <- Hp in Hrun2, Hbuf2, Hpend2.
  rewrite <- Hb in Hbuf2. rewrite <- Hn in Hbytes2.
  exists c1', c2'. eexists. split; [exact Hrun1|]. split; [exact Hrun2|].
  repeat split; congruence.
Qed.

(** C8, amended.  After [md5Init] and any updates that absorb a stream, the
    counter is the length of the stream modulo [2^64] (the length itself
    below [2^64]), its remainder modulo 64 lies in [0, 64), the compression
    step has been called on exactly the first [floor(|S| / 64)] blocks of
    the stream, in order, the first [bytes mod 64] bytes of the buffer are
    the bytes of the stream after these blocks, and what lies in the buffer
    beyond them is never read: accumulators that differ only there behave
    alike. *)
Theorem buffering_invariant_holds (e : endianness) (c0 : md5Context)
    (pieces : list (list byte)) :
  length (in_ c0) = 64%nat ->
  exists ctx calls,
    md5Updates e (md5Init c0) pieces = Ok ctx calls /\
    buffering_invariant e (concat pieces) ctx calls.
Proof.
  intros H0.
  destruct (md5Init_spec c0 H0) as (Hi & Hp & Hb & Hn).
  destruct (md5Updates_spec e pieces (md5Init c0) Hi)
    as (ctx & Hrun & Hbuf & Hbytes & Hi' & Hpend).
  { rewrite Hn. split; [apply Z.le_refl | reflexivity]. }
  rewrite Hp in *. rewrite app_nil_l in *. rewrite Hn, Hb in *.
  set (s := concat pieces) in *.
  exists ctx. eexists. split; [exact Hrun|].
  assert (Hcount : bytes ctx = Z.of_nat (length s) mod 2 ^ 64)
    by (rewrite Hbytes; reflexivity).
  assert (Hfill : buffered ctx = (length s mod 64)%nat).
  { unfold buffered. rewrite land_63, Hcount.
    change (2 ^ 64) with 18446744073709551616. lia. }
  unfold buffering_invariant.
  split; [exact Hcount|].
  split; [intros Hlt; rewrite Hcount; apply Z.mod_small; lia|].
  split; [lia|].
  split; [rewrite Hcount; change (2 ^ 64) with 18446744073709551616; lia|].
  split; [reflexivity|].
  split; [exact Hbuf|].
  split; [exact Hi'|].
  split; [rewrite <- Hfill; exact Hpend|].
  intros ctx2 Hsame. split.
  - apply same_contents_final, Hsame.
  - intros data. apply same_contents_update, Hsame.
Qed.

Lemma buffering_invariant_holds_witness :
  length (in_ cleared) = 64%nat /\
  exists ctx calls,
    md5Updates BigEndian (md5Init cleared) [[x61]; []; repeat x62 70]
    = Ok ctx calls /\
    buffering_invariant BigEndian (concat [[x61]; []; repeat x62 70])
      ctx calls.
Proof.
  split; [reflexivity | apply (buffering_invariant_holds BigEndian cleared);
                        reflexivity].
Defined.

End SpecProperties.

(** * Further properties of the code *)

Section ByteSwapFacts.

Variable e : endianness.

(** Swapping one word twice restores its four bytes. *)
Lemma store32_swap_twice (p0 p1 p2 p3 : byte) :
  match store32 e (le_word p0 p1 p2 p3) with
  | [q0; q1; q2; q3] => store32 e (le_word q0 q1 q2 q3)
  | _ => []
  end = [p0; p1; p2; p3].
Proof.
  destruct (byte_of_le_word p0 p1 p2 p3) as (H0 & H1 & H2 & H3).
  destruct e; cbn [store32]; rewrite H0, H1, H2, H3.
  - cbn [store32]. rewrite H0, H1, H2, H3. reflexivity.
  - destruct (byte_of_le_word p3 p2 p1 p0) as (G0 & G1 & G2 & G3).
    rewrite G0, G1, G2, G3. reflexivity.
Qed.

Lemma swap_twice (k : nat) :
  forall bs : list byte,
    length bs = (4 * k)%nat ->
    store_words e (le_words (store_words e (le_words bs))) = bs.
Proof.
  unfold store_words.
  induction k as [|k IH]; intros bs Hbs.
  - destruct bs; [reflexivity | simpl in Hbs; lia].
  - destruct bs as [|p0 [|p1 [|p2 [|p3 rest]]]]; simpl in Hbs; try lia.
    cbn [le_words flat_map].
    pose proof (store32_swap_twice p0 p1 p2 p3) as Hw.
    pose proof (length_store32 e (le_word p0 p1 p2 p3)) as Hl.
    destruct (store32 e (le_word p0 p1 p2 p3))
      as [|q0 [|q1 [|q2 [|q3 [|q4 qs]]]]]; simpl in Hl; try lia.
    cbn [app le_words flat_map]. rewrite Hw, IH by lia. reflexivity.
Qed.

End ByteSwapFacts.

Lemma store_words_little_endian (k : nat) :
  forall bs : list byte,
    length bs = (4 * k)%nat -> store_words LittleEndian (le_words bs) = bs.
Proof.
  unfold store_words.
  induction k as [|k IH]; intros bs Hbs.
  - destruct bs; [reflexivity | simpl in Hbs; lia].
  - destruct bs as [|p0 [|p1 [|p2 [|p3 rest]]]]; simpl in Hbs; try lia.
    cbn [le_words flat_map store32].
    destruct (byte_of_le_word p0 p1 p2 p3) as (H0 & H1 & H2 & H3).
    rewrite H0, H1, H2, H3, IH by lia. reflexivity.
Qed.

Lemma byteSwap_fault (e : endianness) (words : nat) :
  forall mem : list byte,
    (length mem < 4 * words)%nat -> byteSwap e mem words = Fault OutOfBounds.
Proof.
  induction words as [|n IH]; intros mem Hm; [lia|].
  destruct mem as [|p0 [|p1 [|p2 [|p3 rest]]]]; try reflexivity.
  cbn [byteSwap]. rewrite IH by (simpl in Hm; lia). reflexivity.
Qed.

Lemma testbit_above32 (z n : Z) :
  word32 z -> 32 <= n -> Z.testbit z n = false.
Proof.
  intros Hz Hn. rewrite <- (Z.mod_small z (2 ^ 32)) by exact Hz.
  apply Z.mod_pow2_bits_high. lia.
Qed.

Lemma testbit_not32 (x n : Z) :
  0 <= n ->
  Z.testbit (not32 x) n = if n <? 32 then negb (Z.testbit x n) else false.
Proof.
  intros Hn. unfold not32, u32.
  destruct (Z.ltb_spec n 32) as [Hlt|Hge].
  - rewrite Z.mod_pow2_bits_low by lia. apply Z.lnot_spec, Hn.
  - apply Z.mod_pow2_bits_high. lia.
Qed.

Lemma md5Transform_words (st blk : list Z) :
  length (md5Transform st blk) = 4%nat /\
  Forall word32 (md5Transform st blk).
Proof.
  split; [apply length_md5Transform|].
  rewrite md5Transform_schedule. unfold Schedule.compress.
  destruct (fold_left _ Schedule.rounds _) as [[[a b] c] d].
  unfold Schedule.add_back, word32, u32.
  repeat constructor; apply Z.mod_pos_bound; reflexivity.
Qed.

Lemma compress_all_words (blocks : list (list byte)) :
  forall st,
    length st = 4%nat -> Forall word32 st ->
    length (Spec.compress_all st blocks) = 4%nat /\
    Forall word32 (Spec.compress_all st blocks).
Proof.
  unfold Spec.compress_all.
  induction blocks as [|b blocks IH]; intros st Hl Hw; [split; assumption|].
  rewrite fold_left_step.
  apply IH; apply md5Transform_words.
Qed.

Section FurtherProperties.

Import Spec.

(** X4.  The [F1] of the source is the selection function it replaces,
    [x & y | ~x & z], on 32-bit words; and [F2], which is [F1] with its
    arguments turned, selects by its third argument. *)
Theorem F1_selects (x y z : Z) :
  word32 y -> word32 z ->
  F1 x y z = F1_plain x y z /\
  F2 x y z = Z.lor (Z.land z x) (Z.land (not32 z) y).
Proof.
  intros Hy Hz. unfold F2, F1, F1_plain. split.
  - apply Z.bits_inj'. intros n Hn.
    rewrite Z.lxor_spec, Z.land_spec, Z.lxor_spec, Z.lor_spec, !Z.land_spec.
    rewrite (testbit_not32 x n Hn).
    destruct (Z.ltb_spec n 32) as [Hlt|Hge].
    + destruct (Z.testbit x n), (Z.testbit y n), (Z.testbit z n); reflexivity.
    + rewrite (testbit_above32 z n Hz Hge).
      destruct (Z.testbit x n), (Z.testbit y n); reflexivity.
  - apply Z.bits_inj'. intros n Hn.
    rewrite Z.lxor_spec, Z.land_spec, Z.lxor_spec, Z.lor_spec, !Z.land_spec.
    rewrite (testbit_not32 z n Hn).
    destruct (Z.ltb_spec n 32) as [Hlt|Hge].
    + destruct (Z.testbit x n), (Z.testbit y n), (Z.testbit z n); reflexivity.
    + rewrite (testbit_above32 y n Hy Hge).
      destruct (Z.testbit x n), (Z.testbit z n); reflexivity.
Qed.

Lemma F1_selects_witness :
  word32 0x0f0f0f0f /\ word32 0x12345678 /\
  F1 0xffff0000 0x0f0f0f0f 0x12345678
  = F1_plain 0xffff0000 0x0f0f0f0f 0x12345678 /\
  F2 0xffff0000 0x0f0f0f0f 0x12345678
  = Z.lor (Z.land 0x12345678 0xffff0000)
          (Z.land (not32 0x12345678) 0x0f0f0f0f).
Proof.
  assert (Hy : word32 0x0f0f0f0f) by (unfold word32; lia).
  assert (Hz : word32 0x12345678) by (unfold word32; lia).
  split; [exact Hy | split; [exact Hz | ] ].
  apply (F1_selects 0xffff0000 _ _ Hy Hz).
Defined.


(** X1.  The bounds of [byteSwap]: it faults exactly when the memory is
    shorter than [words] words; otherwise it rewrites the first [words]
    words with the little-endian reading of their bytes, leaves the length
    and every later byte alone, and calls nothing. *)
Theorem byteSwap_bounds (e : endianness) (mem : list byte) (words : nat) :
  byteSwap e mem words =
  if (4 * words <=? length mem)%nat then
    Ok (store_words e (le_words (firstn (4 * words) mem))
          ++ skipn (4 * words) mem) []
  else Fault OutOfBounds.
Proof.
  destruct (Nat.leb_spec (4 * words) (length mem)) as [Hle|Hlt].
  - apply byteSwap_ok, Hle.
  - apply byteSwap_fault, Hlt.
Qed.

(** X2.  On a little-endian machine [byteSwap] does nothing: the memory
    comes back as it was. *)
Theorem byteSwap_little_endian (mem : list byte) (words : nat) :
  (4 * words <= length mem)%nat ->
  byteSwap LittleEndian mem words = Ok mem [].
Proof.
  intros Hle. rewrite (byteSwap_ok LittleEndian words mem Hle).
  rewrite (store_words_little_endian words)
    by (rewrite length_firstn; lia).
  rewrite firstn_skipn. reflexivity.
Qed.

Lemma byteSwap_little_endian_witness :
  (4 * 1 <= length [x01; x02; x03; x04; x05])%nat /\
  byteSwap LittleEndian [x01; x02; x03; x04; x05] 1
  = Ok [x01; x02; x03; x04; x05] [].
Proof.
  assert (H : (4 * 1 <= length [x01; x02; x03; x04; x05])%nat)
    by (simpl; lia).
  split; [exact H | apply (byteSwap_little_endian _ 1 H)].
Defined.

(** X3.  [byteSwap] is its own inverse on either kind of machine: swapping
    the same words twice restores the memory. *)
Theorem byteSwap_twice (e : endianness) (mem : list byte) (words : nat) :
  (4 * words <= length mem)%nat ->
  (mem' <- byteSwap e mem words ;; byteSwap e mem' words) = Ok mem [].
Proof.
  intros Hle. rewrite (byteSwap_ok e words mem Hle), bind_ret.
  assert (Hf : length (firstn (4 * words) mem) = (4 * words)%nat)
    by (rewrite length_firstn; lia).
  assert (Hs : length (store_words e (le_words (firstn (4 * words) mem)))
               = (4 * words)%nat).
  { rewrite length_store_words, (length_le_words _ words Hf). reflexivity. }
  rewrite byteSwap_ok by (rewrite length_app, Hs; lia).
  rewrite firstn_app, skipn_app, Hs, Nat.sub_diag, firstn_O, skipn_O.
  rewrite firstn_all2, skipn_all2, app_nil_r by lia.
  rewrite (swap_twice e words _ Hf). cbn [app].
  rewrite firstn_skipn. reflexivity.
Qed.

Lemma byteSwap_twice_witness :
  (4 * 1 <= length [x01; x02; x03; x04; x05])%nat /\
  (mem' <- byteSwap BigEndian [x01; x02; x03; x04; x05] 1 ;;
   byteSwap BigEndian mem' 1)
  = Ok [x01; x02; x03; x04; x05] [].
Proof.
  assert (H : (4 * 1 <= length [x01; x02; x03; x04; x05])%nat)
    by (simpl; lia).
  split; [exact H | apply (byteSwap_twice BigEndian _ 1 H)].
Defined.

(** X6.  [md5Update] never leaves the block buffer and its loop ends: on
    any accumulator with its 64-byte buffer and any data it returns.  It
    calls the compression step once per completed block, that is
    [(buffered + len) / 64] times, each time on sixteen words, and leaves
    [(buffered + len) mod 64] bytes buffered.  When the data does not
    complete a block the state words are untouched and the data is
    appended to the pending bytes. *)
Theorem md5Update_runs (e : endianness) (ctx : md5Context)
    (data : list byte) :
  length (in_ ctx) = 64%nat ->
  exists ctx' calls,
    md5Update e ctx data = Ok ctx' calls /\
    length calls = ((buffered ctx + length data) / 64)%nat /\
    Forall (fun blk => length blk = 16%nat) calls /\
    buffered ctx' = ((buffered ctx + length data) mod 64)%nat /\
    length (in_ ctx') = 64%nat /\
    ((buffered ctx + length data < 64)%nat ->
     calls = [] /\ buf ctx' = buf ctx /\
     pending ctx' = pending ctx ++ data).
Proof.
  intros Hi.
  destruct (md5Update_spec e ctx data Hi)
    as (ctx' & Hrun & Hbuf & Hbytes & Hi' & Hpend).
  pose proof (length_pending ctx Hi) as Hp.
  exists ctx'. eexists. split; [exact Hrun|].
  split.
  { rewrite length_map, length_full_blocks, length_app, Hp. reflexivity. }
  split.
  { apply Forall_map.
    eapply Forall_impl; [ | apply full_blocks_length_64 ].
    intros b Hb. apply length_le_words. rewrite Hb. reflexivity. }
  split.
  { rewrite <- (length_pending ctx' Hi'), Hpend, length_leftover,
      length_app, Hp. reflexivity. }
  split; [exact Hi'|].
  intros Hshort.
  assert (Hs : (length (pending ctx ++ data) < 64)%nat)
    by (rewrite length_app, Hp; exact Hshort).
  destruct (full_blocks_short _ Hs) as [Hfb Hlo].
  rewrite Hfb in Hbuf. rewrite Hlo in Hpend. rewrite Hfb.
  repeat split; assumption.
Qed.

Lemma md5Update_runs_witness :
  length (in_ pending_60) = 64%nat /\
  exists ctx' calls,
    md5Update BigEndian pending_60 [x01; x02; x03; x04; x05] = Ok ctx' calls /\
    length calls
    = ((buffered pending_60 + length [x01; x02; x03; x04; x05]) / 64)%nat /\
    Forall (fun blk => length blk = 16%nat) calls /\
    buffered ctx'
    = ((buffered pending_60 + length [x01; x02; x03; x04; x05]) mod 64)%nat /\
    length (in_ ctx') = 64%nat /\
    ((buffered pending_60 + length [x01; x02; x03; x04; x05] < 64)%nat ->
     calls = [] /\ buf ctx' = buf pending_60 /\
     pending ctx' = pending pending_60 ++ [x01; x02; x03; x04; x05]).
Proof.
  split; [reflexivity | apply (md5Update_runs BigEndian pending_60);
                        reflexivity].
Defined.

(** X7.  Updates compose in the middle of a stream too: on any accumulator
    with its 64-byte buffer, an update with [A] followed by one with [B]
    calls the compression step on the same blocks, in the same order, as
    one update with [A ++ B], and leaves the same state words, counter and
    pending bytes. *)
Theorem md5Update_app (e : endianness) (ctx : md5Context) (A B : list byte) :
  length (in_ ctx) = 64%nat ->
  exists c1 c2 c3 callsA callsB,
    md5Update e ctx A = Ok c1 callsA /\
    md5Update e c1 B = Ok c2 callsB /\
    md5Update e ctx (A ++ B) = Ok c3 (callsA ++ callsB) /\
    same_contents c2 c3.
Proof.
  intros Hi.
  destruct (md5Update_spec e ctx A Hi)
    as (c1 & Hrun1 & Hbuf1 & Hbytes1 & Hi1 & Hpend1).
  destruct (md5Update_spec e c1 B Hi1)
    as (c2 & Hrun2 & Hbuf2 & Hbytes2 & Hi2 & Hpend2).
  destruct (md5Update_spec e ctx (A ++ B) Hi)
    as (c3 & Hrun3 & Hbuf3 & Hbytes3 & Hi3 & Hpend3).
  destruct (full_blocks_app (pending ctx ++ A) B) as [Hfb Hlo].
  rewrite app_assoc in Hrun3, Hbuf3, Hpend3.
  rewrite Hfb in Hrun3, Hbuf3. rewrite Hlo in Hpend3.
  rewrite <- Hpend1 in Hrun3, Hbuf3, Hpend3.
  rewrite map_app in Hrun3.
  rewrite compress_all_app, <- Hbuf1 in Hbuf3.
  exists c1, c2, c3. do 2 eexists.
  split; [exact Hrun1|]. split; [exact Hrun2|]. split; [exact Hrun3|].
  unfold same_contents. repeat split; try assumption.
  - congruence.
  - rewrite Hbytes2, Hbytes1, Hbytes3, length_app. unfold u64.
    change (2 ^ 64) with 18446744073709551616. lia.
  - congruence.
Qed.

Lemma md5Update_app_witness :
  length (in_ pending_60) = 64%nat /\
  exists c1 c2 c3 callsA callsB,
    md5Update LittleEndian pending_60 [x01; x02] = Ok c1 callsA /\
    md5Update LittleEndian c1 [x03; x04; x05] = Ok c2 callsB /\
    md5Update LittleEndian pending_60 ([x01; x02] ++ [x03; x04; x05])
    = Ok c3 (callsA ++ callsB) /\
    same_contents c2 c3.
Proof.
  split; [reflexivity | apply (md5Update_app LittleEndian pending_60);
                        reflexivity].
Defined.

(** X8.  The operations keep an accumulator well formed: [md5Init] makes
    one, with four 32-bit state words, a 64-bit counter and the 64-byte
    buffer it was given; [md5Update] keeps it so whatever the data; and
    [md5Final] leaves the all-zero one. *)
Theorem well_formed_kept (e : endianness) (ctx : md5Context)
    (data : list byte) :
  well_formed ctx ->
  well_formed (md5Init ctx) /\
  (exists ctx' calls,
     md5Update e ctx data = Ok ctx' calls /\ well_formed ctx') /\
  (exists digest ctx' calls,
     md5Final e ctx = Ok (digest, ctx') calls /\ well_formed ctx').
Proof.
  intros ((Hl & Hb & Hi) & Hw).
  assert (Hz : forall z, 0 <= z < 4294967296 -> word32 z)
    by (intros z Hzr; exact Hzr).
  split.
  { unfold well_formed, well_typed, md5Init. cbn [buf bytes in_].
    repeat split; try assumption; try reflexivity; try (apply Z.le_refl).
    repeat constructor; apply Hz; lia. }
  split.
  { destruct (md5Update_spec e ctx data Hi)
      as (ctx' & Hrun & Hbuf & Hbytes & Hi' & Hpend).
    destruct (compress_all_words (full_blocks (pending ctx ++ data))
                (buf ctx) Hl Hw) as [Hl' Hw'].
    rewrite <- Hbuf in Hl', Hw'.
    exists ctx'. eexists. split; [exact Hrun|].
    unfold well_formed, well_typed. repeat split; try assumption;
      rewrite Hbytes; apply u64_range. }
  rewrite (md5Final_spec e ctx Hi). do 3 eexists. split; [reflexivity|].
  unfold well_formed, well_typed, cleared. cbn [buf bytes in_].
  repeat split; try reflexivity; try (apply Z.le_refl).
  repeat constructor; apply Hz; lia.
Qed.

Lemma well_formed_kept_witness :
  well_formed cleared /\
  well_formed (md5Init cleared) /\
  (exists ctx' calls,
     md5Update LittleEndian cleared [x61; x62; x63] = Ok ctx' calls /\
     well_formed ctx') /\
  (exists digest ctx' calls,
     md5Final LittleEndian cleared = Ok (digest, ctx') calls /\
     well_formed ctx').
Proof.
  assert (H : well_formed cleared).
  { unfold well_formed, well_typed, word32. cbn [cleared buf bytes in_].
    repeat split; try reflexivity; try lia.
    repeat constructor; lia. }
  split; [exact H | apply (well_formed_kept LittleEndian cleared _ H)].
Defined.

(** X9.  [md5Init] starts afresh whatever the accumulator went through:
    after any updates, a session on the same accumulator returns what the
    one-shot [md5] returns on the new stream alone. *)
Theorem md5Init_resets (e : endianness) (c0 : md5Context)
    (before pieces : list (list byte)) :
  length (in_ c0) = 64%nat ->
  exists used calls,
    md5Updates e (md5Init c0) before = Ok used calls /\
    md5_session e used pieces = md5 e c0 (concat pieces) /\
    md5_session e cleared pieces = md5 e c0 (concat pieces).
Proof.
  intros H0.
  destruct (md5Init_spec c0 H0) as (Hi & Hp & Hb & Hn).
  destruct (md5Updates_spec e before (md5Init c0) Hi)
    as (used & Hrun & _ & _ & Hi' & _).
  { rewrite Hn. split; [apply Z.le_refl | reflexivity]. }
  exists used. eexists. split; [exact Hrun|].
  rewrite (md5_session_spec e used pieces Hi').
  rewrite (md5_session_spec e cleared pieces eq_refl).
  rewrite (md5_spec e c0 _ H0). split; reflexivity.
Qed.

Lemma md5Init_resets_witness :
  length (in_ pending_60) = 64%nat /\
  exists used calls,
    md5Updates LittleEndian (md5Init pending_60) [[x01]; [x02; x03]]
    = Ok used calls /\
    md5_session LittleEndian used [[x61]; [x62; x63]]
    = md5 LittleEndian pending_60 (concat [[x61]; [x62; x63]]) /\
    md5_session LittleEndian cleared [[x61]; [x62; x63]]
    = md5 LittleEndian pending_60 (concat [[x61]; [x62; x63]]).
Proof.
  split; [reflexivity | apply (md5Init_resets LittleEndian pending_60);
                        reflexivity].
Defined.

(** X10.  The byte order of the machine does not show: on a little-endian
    and on a big-endian host an update calls the compression step on the
    same words and leaves the same state words, counter and pending
    bytes, [md5Final] returns the same digest, and so do whole sessions
    and the one-shot [md5]. *)
Theorem host_byte_order_hidden (ctx c1 c2 : md5Context) (data : list byte)
    (pieces : list (list byte)) :
  length (in_ ctx) = 64%nat ->
  length (in_ c1) = 64%nat -> length (in_ c2) = 64%nat ->
  (exists l b calls,
     md5Update LittleEndian ctx data = Ok l calls /\
     md5Update BigEndian ctx data = Ok b calls /\
     same_contents l b) /\
  md5Final LittleEndian ctx = md5Final BigEndian ctx /\
  md5_session LittleEndian c1 pieces = md5_session BigEndian c2 pieces /\
  md5 LittleEndian c1 data = md5 BigEndian c2 data.
Proof.
  intros Hi H1 H2. repeat split.
  - destruct (md5Update_spec LittleEndian ctx data Hi)
      as (l & Hrunl & Hbufl & Hbytesl & Hil & Hpendl).
    destruct (md5Update_spec BigEndian ctx data Hi)
      as (b & Hrunb & Hbufb & Hbytesb & Hib & Hpendb).
    exists l, b. eexists. split; [exact Hrunl|]. split; [exact Hrunb|].
    unfold same_contents. repeat split; try assumption; congruence.
  - rewrite !(md5Final_spec _ ctx Hi). reflexivity.
  - rewrite (md5_session_spec _ c1 pieces H1),
      (md5_session_spec _ c2 pieces H2). reflexivity.
  - rewrite (md5_spec _ c1 data H1), (md5_spec _ c2 data H2). reflexivity.
Qed.

Lemma host_byte_order_hidden_witness :
  length (in_ pending_60) = 64%nat /\
  length (in_ cleared) = 64%nat /\ length (in_ pending_60) = 64%nat /\
  (exists l b calls,
     md5Update LittleEndian pending_60 [x61; x62; x63; x64; x65] = Ok l calls /\
     md5Update BigEndian pending_60 [x61; x62; x63; x64; x65] = Ok b calls /\
     same_contents l b) /\
  md5Final LittleEndian pending_60 = md5Final BigEndian pending_60 /\
  md5_session LittleEndian cleared [[x61]; [x62]]
  = md5_session BigEndian pending_60 [[x61]; [x62]] /\
  md5 LittleEndian cleared [x61; x62; x63; x64; x65]
  = md5 BigEndian pending_60 [x61; x62; x63; x64; x65].
Proof.
  split; [reflexivity | split; [reflexivity | split; [reflexivity | ] ] ].
  apply (host_byte_order_hidden pending_60 cleared pending_60); reflexivity.
Defined.

Lemma length_pad (s : list byte) (b : Z) :
  length (pad s b)
  = (length s + 1 + (56 + 64 - (length s + 1) mod 64) mod 64 + 8)%nat.
Proof.
  rewrite pad_general, length_app. cbn [length].
  rewrite length_app, repeat_length, length_trailer. lia.
Qed.

(** X11.  What the one-shot [md5] costs: on [len] bytes it returns 16 bytes
    after calling the compression step [(len + 8) / 64 + 1] times, each
    time on sixteen words. *)
Theorem md5_block_count (e : endianness) (c0 : md5Context)
    (data : list byte) :
  length (in_ c0) = 64%nat ->
  exists digest calls,
    md5 e c0 data = Ok digest calls /\
    length digest = 16%nat /\
    length calls = ((length data + 8) / 64 + 1)%nat /\
    Forall (fun blk => length blk = 16%nat) calls.
Proof.
  intros H0. rewrite (md5_spec e c0 data H0).
  do 2 eexists. split; [reflexivity|]. repeat split.
  - apply length_digest_from. reflexivity.
  - rewrite length_map, length_full_blocks, length_pad. lia.
  - apply Forall_map.
    eapply Forall_impl; [ | apply full_blocks_length_64 ].
    intros b Hb. apply length_le_words. rewrite Hb. reflexivity.
Qed.

Lemma md5_block_count_witness :
  length (in_ cleared) = 64%nat /\
  exists digest calls,
    md5 BigEndian cleared (repeat x61 56) = Ok digest calls /\
    length digest = 16%nat /\
    length calls = ((length (repeat x61 56) + 8) / 64 + 1)%nat /\
    Forall (fun blk => length blk = 16%nat) calls.
Proof.
  split; [reflexivity | apply (md5_block_count BigEndian cleared);
                        reflexivity].
Defined.

Lemma le_bytes_le_words (k : nat) :
  forall bs : list byte,
    length bs = (4 * k)%nat -> le_bytes (le_words bs) = bs.
Proof.
  unfold le_bytes.
  induction k as [|k IH]; intros bs Hbs.
  - destruct bs; [reflexivity | simpl in Hbs; lia].
  - destruct bs as [|p0 [|p1 [|p2 [|p3 rest]]]]; simpl in Hbs; try lia.
    cbn [le_words flat_map]. unfold le_bytes32 at 1.
    destruct (byte_of_le_word p0 p1 p2 p3) as (H0 & H1 & H2 & H3).
    rewrite H0, H1, H2, H3, IH by lia. reflexivity.
Qed.

Lemma map_le_words_inj (l1 l2 : list (list byte)) :
  Forall (fun b => length b = 64%nat) l1 ->
  Forall (fun b => length b = 64%nat) l2 ->
  map le_words l1 = map le_words l2 -> l1 = l2.
Proof.
  intros H1 H2 Heq.
  assert (Hid : forall l, Forall (fun b => length b = 64%nat) l ->
                  map le_bytes (map le_words l) = l).
  { intros l Hl. rewrite map_map. rewrite <- (map_id l) at 2.
    apply map_ext_in. intros b Hb.
    apply (le_bytes_le_words 16).
    rewrite Forall_forall in Hl. rewrite (Hl b Hb). reflexivity. }
  rewrite <- (Hid l1 H1), <- (Hid l2 H2), Heq. reflexivity.
Qed.

Lemma concat_full_blocks_whole (p : list byte) :
  (length p mod 64 = 0)%nat -> concat (full_blocks p) = p.
Proof.
  intros Hm. pose proof (concat_full_blocks p) as Hc.
  pose proof (length_leftover p) as Hl. rewrite Hm in Hl.
  destruct (leftover p); [ | discriminate Hl ].
  rewrite app_nil_r in Hc. exact Hc.
Qed.

Lemma trailer_inj (t1 t2 : Z) :
  0 <= t1 < 2 ^ 61 -> 0 <= t2 < 2 ^ 61 -> trailer t1 = trailer t2 -> t1 = t2.
Proof.
  intros H1 H2 Heq.
  assert (Hw : trailer_words t1 = trailer_words t2).
  { apply (f_equal le_words) in Heq. unfold trailer in Heq.
    rewrite <- (app_nil_r (le_bytes (trailer_words t1))) in Heq.
    rewrite <- (app_nil_r (le_bytes (trailer_words t2))) in Heq.
    rewrite !le_words_le_bytes, !trailer_words_range in Heq.
    cbn [le_words] in Heq. rewrite !app_nil_r in Heq. exact Heq. }
  pose proof (f_equal (fun l => nth 0 l 0) Hw) as Hlo.
  pose proof (f_equal (fun l => nth 1 l 0) Hw) as Hhi.
  unfold trailer_words, bit_count in Hlo, Hhi. cbn [nth] in Hlo, Hhi.
  change (2 ^ 61) with 2305843009213693952 in *.
  change (2 ^ 64) with 18446744073709551616 in *.
  change (2 ^ 32) with 4294967296 in *.
  lia.
Qed.

Lemma pad_inj (s1 s2 : list byte) :
  Z.of_nat (length s1) < 2 ^ 61 -> Z.of_nat (length s2) < 2 ^ 61 ->
  pad s1 (Z.of_nat (length s1)) = pad s2 (Z.of_nat (length s2)) ->
  s1 = s2.
Proof.
  intros H1 H2 Heq.
  pose proof (f_equal (@length byte) Heq) as Hlen.
  rewrite !length_pad in Hlen.
  rewrite !pad_general in Heq.
  set (k1 := ((56 + 64 - (length s1 + 1) mod 64) mod 64)%nat) in *.
  set (k2 := ((56 + 64 - (length s2 + 1) mod 64) mod 64)%nat) in *.
  assert (Hskip : forall (s : list byte) k t,
            skipn (length s + (1 + (k + 0)))
              (s ++ x80 :: repeat x00 k ++ t) = t).
  { intros s k t. rewrite skipn_app, skipn_all2 by lia.
    replace (length s + (1 + (k + 0)) - length s)%nat with (S k) by lia.
    cbn [app skipn].
    rewrite skipn_app, skipn_all2 by (rewrite repeat_length; lia).
    rewrite repeat_length, Nat.sub_diag. reflexivity. }
  assert (Hn : (length s1 + (1 + (k1 + 0)) = length s2 + (1 + (k2 + 0)))%nat)
    by lia.
  assert (Ht : trailer (Z.of_nat (length s1)) = trailer (Z.of_nat (length s2))).
  { pose proof (Hskip s1 k1 (trailer (Z.of_nat (length s1)))) as A.
    pose proof (Hskip s2 k2 (trailer (Z.of_nat (length s2)))) as B.
    rewrite Heq, Hn in A. rewrite A in B. exact B. }
  apply trailer_inj in Ht; try lia.
  apply Nat2Z.inj in Ht.
  pose proof (f_equal (firstn (length s1)) Heq) as Hf.
  rewrite firstn_app, firstn_all, Nat.sub_diag, firstn_O, app_nil_r in Hf.
  rewrite Ht in Hf.
  rewrite firstn_app, firstn_all, Nat.sub_diag, firstn_O, app_nil_r in Hf.
  exact Hf.
Qed.

(** X12.  The padding of [md5Final] is unambiguous: two messages of fewer
    than [2^61] bytes that make [md5] call the compression step on the
    same sequence of blocks are the same message, on whatever hosts and
    accumulators the two runs happen. *)
Theorem md5_blocks_determine_message (e1 e2 : endianness)
    (c1 c2 : md5Context) (data1 data2 : list byte) :
  length (in_ c1) = 64%nat -> length (in_ c2) = 64%nat ->
  Z.of_nat (length data1) < 2 ^ 61 -> Z.of_nat (length data2) < 2 ^ 61 ->
  calls_of (md5 e1 c1 data1) = calls_of (md5 e2 c2 data2) ->
  data1 = data2.
Proof.
  intros H1 H2 Hl1 Hl2.
  rewrite (md5_spec e1 c1 data1 H1), (md5_spec e2 c2 data2 H2).
  cbn [calls_of]. intros Hcalls.
  apply map_le_words_inj in Hcalls; try apply full_blocks_length_64.
  apply (f_equal (@concat byte)) in Hcalls.
  rewrite !concat_full_blocks_whole in Hcalls
    by (rewrite length_pad; lia).
  apply pad_inj; assumption.
Qed.

Lemma md5_blocks_determine_message_witness :
  length (in_ cleared) = 64%nat /\ length (in_ pending_60) = 64%nat /\
  Z.of_nat (length [x61; x62; x63]) < 2 ^ 61 /\
  Z.of_nat (length [x61; x62; x63]) < 2 ^ 61 /\
  calls_of (md5 LittleEndian cleared [x61; x62; x63])
  = calls_of (md5 BigEndian pending_60 [x61; x62; x63]) /\
  [x61; x62; x63] = [x61; x62; x63].
Proof.
  assert (Hl : Z.of_nat (length [x61; x62; x63]) < 2 ^ 61) by reflexivity.
  assert (Hc : calls_of (md5 LittleEndian cleared [x61; x62; x63])
               = calls_of (md5 BigEndian pending_60 [x61; x62; x63]))
    by (vm_compute; reflexivity).
  split; [reflexivity | split; [reflexivity | ] ].
  split; [exact Hl | split; [exact Hl | split; [exact Hc | ] ] ].
  apply (md5_blocks_determine_message LittleEndian BigEndian cleared
           pending_60 _ _ eq_refl eq_refl Hl Hl Hc).
Defined.

(** X13.  Each of the four groups of sixteen steps of [md5Transform] reads
    each of the sixteen words of the block exactly once. *)
Theorem each_word_once_per_group (g j : nat) :
  (g < 4)%nat -> (j < 16)%nat ->
  (forall state block : list Z,
     md5Transform state block = Schedule.compress state block) /\
  length (filter (fun i => (Schedule.index g i =? j)%nat) (seq 0 16)) = 1%nat.
Proof.
  intros Hg Hj. split; [exact md5Transform_schedule|].
  destruct g as [|[|[|[|g]]]]; try lia;
    do 16 (destruct j as [|j]; [reflexivity|]); lia.
Qed.

Lemma each_word_once_per_group_witness :
  (2 < 4)%nat /\ (7 < 16)%nat /\
  (forall state block : list Z,
     md5Transform state block = Schedule.compress state block) /\
  length (filter (fun i => (Schedule.index 2 i =? 7)%nat) (seq 0 16)) = 1%nat.
Proof.
  assert (Hg : (2 < 4)%nat) by lia.
  assert (Hj : (7 < 16)%nat) by lia.
  split; [exact Hg | split; [exact Hj | ] ].
  apply (each_word_once_per_group 2 7 Hg Hj).
Defined.

Lemma map_u32_words (ws : list Z) : Forall word32 ws -> map u32 ws = ws.
Proof.
  intros Hw. rewrite <- (map_id ws) at 2. apply map_ext_in.
  intros w Hin. rewrite Forall_forall in Hw.
  unfold u32. apply Z.mod_small, Hw, Hin.
Qed.

Lemma compress_all_cons_words (st : list Z) (b : list byte)
    (blocks : list (list byte)) :
  length (compress_all st (b :: blocks)) = 4%nat /\
  Forall word32 (compress_all st (b :: blocks)).
Proof.
  unfold compress_all. rewrite fold_left_step.
  apply compress_all_words; apply md5Transform_words.
Qed.

(** X14.  The digest is the final state, least significant byte first: the
    sixteen bytes [md5Final] hands out, read back as four little-endian
    words, are the state words after the last compression, and writing
    these words out again gives the digest. *)
Theorem digest_is_final_state (e : endianness) (ctx : md5Context) :
  length (in_ ctx) = 64%nat ->
  exists digest calls,
    md5Final e ctx = Ok (digest, cleared) calls /\
    length digest = 16%nat /\
    le_words digest = compress_all (buf ctx) (padding_blocks ctx) /\
    le_bytes (le_words digest) = digest.
Proof.
  intros Hi.
  destruct (md5Final_padding e ctx Hi) as (_ & _ & Hrun & _ & _ & _ & Hn).
  assert (Hw : length (compress_all (buf ctx) (padding_blocks ctx)) = 4%nat /\
               Forall word32 (compress_all (buf ctx) (padding_blocks ctx))).
  { destruct (padding_blocks ctx) as [|b blocks].
    - destruct (buffered ctx <? 56)%nat; discriminate Hn.
    - apply compress_all_cons_words. }
  destruct Hw as [Hl Hw].
  do 2 eexists. split; [exact Hrun|].
  assert (Hrt : le_words (le_bytes
                   (compress_all (buf ctx) (padding_blocks ctx)))
                = compress_all (buf ctx) (padding_blocks ctx)).
  { rewrite <- (app_nil_r (le_bytes _)), le_words_le_bytes.
    cbn [le_words]. rewrite app_nil_r. apply map_u32_words, Hw. }
  repeat split.
  - rewrite length_le_bytes, Hl. reflexivity.
  - exact Hrt.
  - rewrite Hrt. reflexivity.
Qed.

Lemma digest_is_final_state_witness :
  length (in_ pending_60) = 64%nat /\
  exists digest calls,
    md5Final BigEndian pending_60 = Ok (digest, cleared) calls /\
    length digest = 16%nat /\
    le_words digest = compress_all (buf pending_60) (padding_blocks pending_60) /\
    le_bytes (le_words digest) = digest.
Proof.
  split; [reflexivity | apply (digest_is_final_state BigEndian pending_60);
                        reflexivity].
Defined.

Lemma word32_of_bits (x : Z) :
  0 <= x -> (forall i, 32 <= i -> Z.testbit x i = false) -> word32 x.
Proof.
  intros Hx Hhigh.
  assert (Hm : x = x mod 2 ^ 32).
  { apply Z.bits_inj'. intros i Hi.
    destruct (Z.lt_ge_cases i 32) as [Hlt|Hge].
    - rewrite Z.mod_pow2_bits_low by lia. reflexivity.
    - rewrite Z.mod_pow2_bits_high by lia. apply Hhigh, Hge. }
  unfold word32. rewrite Hm. apply Z.mod_pos_bound. reflexivity.
Qed.

Lemma rotate_left_bits (v s i : Z) :
  word32 v -> 0 < s < 32 -> 0 <= i ->
  Z.testbit (Schedule.rotate_left v s) i =
  if i <? 32 then Z.testbit v ((i - s) mod 32) else false.
Proof.
  intros Hv Hs Hi. unfold Schedule.rotate_left, u32.
  rewrite Z.lor_spec, Z.shiftr_spec by exact Hi.
  destruct (Z.ltb_spec i 32) as [Hlt|Hge].
  - rewrite Z.mod_pow2_bits_low, Z.shiftl_spec by lia.
    destruct (Z.lt_ge_cases i s) as [Hlo|Hhi].
    + rewrite (Z.testbit_neg_r v (i - s)) by lia.
      replace ((i - s) mod 32) with (i + (32 - s)) by lia. reflexivity.
    + rewrite (testbit_above32 v (i + (32 - s)) Hv) by lia.
      replace ((i - s) mod 32) with (i - s) by lia. apply orb_false_r.
  - rewrite Z.mod_pow2_bits_high by lia.
    apply (testbit_above32 v (i + (32 - s)) Hv). lia.
Qed.

Lemma rotate_left_word32 (v s : Z) :
  word32 v -> 0 < s < 32 -> word32 (Schedule.rotate_left v s).
Proof.
  intros Hv Hs. apply word32_of_bits.
  - unfold Schedule.rotate_left. apply Z.lor_nonneg. split.
    + unfold u32. apply Z.mod_pos_bound. reflexivity.
    + apply Z.shiftr_nonneg, Hv.
  - intros i Hi. rewrite (rotate_left_bits v s i Hv Hs) by lia.
    replace (i <? 32) with false by (symmetry; apply Z.ltb_ge; exact Hi).
    reflexivity.
Qed.

(** X15.  The shift-and-or of [MD5STEP] is a rotation: for a rotation
    amount strictly between 0 and 32 the step adds [x], modulo [2^32], to
    the 32-bit word whose bit [i] is bit [(i - s) mod 32] of the sum
    [w + f(x,y,z) + in], itself taken modulo [2^32]. *)
Theorem MD5STEP_rotates (f : Z -> Z -> Z -> Z) (w x y z ini k s : Z) :
  0 < s < 32 ->
  exists v r,
    v = u32 (w + f x y z + ini + k) /\
    MD5STEP f w x y z ini k s = u32 (r + x) /\
    word32 r /\
    (forall i, 0 <= i < 32 -> Z.testbit r i = Z.testbit v ((i - s) mod 32)).
Proof.
  intros Hs.
  exists (u32 (w + f x y z + ini + k)).
  exists (Schedule.rotate_left (u32 (w + f x y z + ini + k)) s).
  assert (Hv : word32 (u32 (w + f x y z + ini + k)))
    by (apply Z.mod_pos_bound; reflexivity).
  split; [reflexivity|]. split.
  - unfold MD5STEP, Schedule.rotate_left. cbv zeta.
    replace (u32 (w + u32 (u32 (f x y z + ini) + k)))
      with (u32 (w + f x y z + ini + k))
      by (unfold u32; change (2 ^ 32) with 4294967296; lia).
    reflexivity.
  - split; [apply rotate_left_word32; assumption|].
    intros i Hi. rewrite (rotate_left_bits _ s i Hv Hs) by lia.
    replace (i <? 32) with true by (symmetry; apply Z.ltb_lt; lia).
    reflexivity.
Qed.

Lemma MD5STEP_rotates_witness :
  0 < 7 < 32 /\
  exists v r,
    v = u32 (0x67452301 + F1 0xefcdab89 0x98badcfe 0x10325476 + 0 + 0xd76aa478) /\
    MD5STEP F1 0x67452301 0xefcdab89 0x98badcfe 0x10325476 0 0xd76aa478 7
    = u32 (r + 0xefcdab89) /\
    word32 r /\
    (forall i, 0 <= i < 32 -> Z.testbit r i = Z.testbit v ((i - 7) mod 32)).
Proof.
  assert (Hs : 0 < 7 < 32) by lia.
  split; [exact Hs | ].
  apply (MD5STEP_rotates F1 0x67452301 0xefcdab89 0x98badcfe 0x10325476
           0 0xd76aa478 7 Hs).
Defined.

(** X16.  What the one-shot [md5] computes, in one statement: the message
    is followed by the byte [0x80], by zero bytes up to 56 modulo 64 and
    by its bit count on 8 bytes; the result, a whole number of 64-byte
    blocks, is compressed block after block from the initial constants,
    each block read as sixteen little-endian words; the digest is the
    final state, least significant byte first. *)
Theorem md5_computes_padded_digest (e : endianness) (c0 : md5Context)
    (data : list byte) :
  length (in_ c0) = 64%nat ->
  (length (padded_message data) mod 64 = 0)%nat /\
  concat (full_blocks (padded_message data)) = padded_message data /\
  md5 e c0 data =
  Ok (le_bytes (compress_all [0x67452301; 0xefcdab89; 0x98badcfe; 0x10325476]
                  (full_blocks (padded_message data))))
     (map le_words (full_blocks (padded_message data))).
Proof.
  intros H0.
  assert (Hp : pad data (Z.of_nat (length data)) = padded_message data).
  { rewrite pad_general. unfold padded_message.
    replace ((56 + 64 - (length data + 1) mod 64) mod 64)%nat
      with ((119 - length data mod 64) mod 64)%nat by lia.
    reflexivity. }
  assert (Hm : (length (padded_message data) mod 64 = 0)%nat)
    by (rewrite <- Hp, length_pad; lia).
  split; [exact Hm|].
  split; [apply concat_full_blocks_whole, Hm|].
  rewrite (md5_spec e c0 data H0). unfold digest, digest_from.
  rewrite Hp. reflexivity.
Qed.

Lemma md5_computes_padded_digest_witness :
  length (in_ cleared) = 64%nat /\
  (length (padded_message (repeat x61 64)) mod 64 = 0)%nat /\
  concat (full_blocks (padded_message (repeat x61 64)))
  = padded_message (repeat x61 64) /\
  md5 LittleEndian cleared (repeat x61 64) =
  Ok (le_bytes (compress_all [0x67452301; 0xefcdab89; 0x98badcfe; 0x10325476]
                  (full_blocks (padded_message (repeat x61 64)))))
     (map le_words (full_blocks (padded_message (repeat x61 64)))).
Proof.
  split; [reflexivity | apply (md5_computes_padded_digest LittleEndian cleared);
                        reflexivity].
Defined.

End FurtherProperties.
